(** * Foodprint: the request-to-result pipeline of [main.py]

    A shallow embedding of the FastAPI backend: tolerant JSON recovery
    ([safe_parse_json]), the shape coercion done by both handlers, and the
    two handlers [estimate_text] and [estimate_image] with their error
    mapping.  Python values are modelled as data, exceptions as a result
    type, and the remote model as a function whose calls are logged. *)

From Stdlib Require Import ZArith NArith PArith List String Ascii Bool Lia.
From Stdlib Require Import Strings.Byte.
Import ListNotations.

Set Implicit Arguments.
Set Warnings "-register-all".
Set Warnings "-abstract-large-number".

(** ** Python strings

    A [str] is a sequence of Unicode code points. *)

Module PyStr.

Definition pystr := list N.

(** An ASCII literal of the source, as a [str]. *)
Definition lit (s : string) : pystr :=
  map N_of_ascii (list_ascii_of_string s).

(** The same, with every apostrophe read as a double quote.  Used to write
    JSON sample texts. *)
Definition jlit (s : string) : pystr :=
  map (fun c => if N.eqb c 39 then 34%N else c) (lit s).

Fixpoint eqb (a b : pystr) : bool :=
  match a, b with
  | [], [] => true
  | x :: a', y :: b' => N.eqb x y && eqb a' b'
  | _, _ => false
  end.

(** [Py_UNICODE_ISSPACE]: the code points [str.strip()] removes. *)
Definition is_space (c : N) : bool :=
  (((9 <=? c) && (c <=? 13)) || ((28 <=? c) && (c <=? 32))
   || (c =? 133) || (c =? 160) || (c =? 5760)
   || ((8192 <=? c) && (c <=? 8202))
   || (c =? 8232) || (c =? 8233) || (c =? 8239) || (c =? 8287)
   || (c =? 12288))%N.

Fixpoint lstrip (s : pystr) : pystr :=
  match s with
  | c :: r => if is_space c then lstrip r else s
  | [] => []
  end.

Definition rstrip (s : pystr) : pystr := rev (lstrip (rev s)).

(** [s.strip()] *)
Definition strip (s : pystr) : pystr := rstrip (lstrip s).

(** [s.find(c)] for a one-character needle: index of the first occurrence,
    [None] for Python's -1. *)
Fixpoint find (c : N) (s : pystr) : option nat :=
  match s with
  | [] => None
  | x :: r => if N.eqb x c then Some O
              else match find c r with
                   | Some i => Some (S i)
                   | None => None
                   end
  end.

(** [s.rfind(c)]: index of the last occurrence. *)
Fixpoint rfind (c : N) (s : pystr) : option nat :=
  match s with
  | [] => None
  | x :: r => match rfind c r with
              | Some i => Some (S i)
              | None => if N.eqb x c then Some O else None
              end
  end.

(** [s[i:j]] for [0 <= i], [0 <= j]. *)
Definition slice (s : pystr) (i j : nat) : pystr :=
  firstn (j - i) (skipn i s).

End PyStr.
Import PyStr.

Arguments lit : simpl never.
Arguments jlit : simpl never.

Notation "s1 +++ s2" := (@app N s1 s2) (at level 60, right associativity).

(** ** Python floats: IEEE 754 binary64

    A finite non-zero double is [(-1)^neg * m * 2^(k - 1074)]; the weight of
    the last bit of a subnormal is [2^-1074], so every double has [k >= 0].
    Canonical finite values have [m < 2^53], and [2^52 <= m] unless [k = 0]. *)

Module PyFloat.

Local Open Scope N_scope.

Inductive pyfloat : Type :=
| FNaN
| FInf (neg : bool)
| FZero (neg : bool)
| FFin (neg : bool) (m : positive) (k : N).

Definition eqb (x y : pyfloat) : bool :=
  match x, y with
  | FNaN, FNaN => true
  | FInf a, FInf b => Bool.eqb a b
  | FZero a, FZero b => Bool.eqb a b
  | FFin a m k, FFin b n j => Bool.eqb a b && Pos.eqb m n && N.eqb k j
  | _, _ => false
  end.

(** [bool(x)]: a float is falsy exactly when it compares equal to zero.  NaN
    is truthy. *)
Definition truthy (x : pyfloat) : bool :=
  match x with
  | FZero _ => false
  | _ => true
  end.

Definition pos_zero : pyfloat := FZero false.

(** [M / 2^sh] rounded to the nearest integer, ties to even. *)
Definition rne_shift (M sh : N) : N :=
  let q := N.shiftr M sh in
  let r := N.land M (N.ones sh) in
  let half := N.shiftl 1 (sh - 1) in
  if (sh =? 0)%N then M
  else if (half <? r)%N || ((half =? r)%N && N.odd q) then (q + 1)%N
  else q.

(** Round a magnitude given in units of [2^-1077] (three bits below the last
    bit of a subnormal; the lowest may be a sticky bit) to the nearest double,
    ties to even.  Overflow gives infinity, underflow a signed zero. *)
Definition round_units (neg : bool) (M : N) : pyfloat :=
  let sh := N.max 3 (N.size M - 53) in
  let m := rne_shift M sh in
  let '(m, sh) := if (m =? 2 ^ 53)%N then ((2 ^ 52)%N, (sh + 1)%N) else (m, sh) in
  match m with
  | N0 => FZero neg
  | Npos p => if (2045 <? sh - 3)%N then FInf neg else FFin neg p (sh - 3)
  end.

(** The double nearest to [n / d] ([strtod] on an exact decimal). *)
Definition round_ratio (neg : bool) (n d : N) : pyfloat :=
  let num := (n * 2 ^ 1076)%N in
  let q := (num / d)%N in
  let sticky := if (num mod d =? 0)%N then 0%N else 1%N in
  round_units neg (2 * q + sticky).

(** [float(z)] for an int: correctly rounded, [None] for [OverflowError]. *)
Definition of_int (z : Z) : option pyfloat :=
  if (z =? 0)%Z then Some pos_zero
  else match round_units (z <? 0)%Z (Z.abs_N z * 2 ^ 1077) with
       | FInf _ => None
       | f => Some f
       end.

(** The double denoted by the decimal [digits * 10^e10] ([float] on a JSON
    number literal). *)
Definition of_decimal (neg : bool) (digits : N) (e10 : Z) : pyfloat :=
  match e10 with
  | Zneg p => round_ratio neg digits (10 ^ Npos p)
  | _ => round_units neg (digits * 10 ^ Z.to_N e10 * 2 ^ 1077)
  end.

Definition signed (neg : bool) (n : N) : Z :=
  if neg then (- Z.of_N n)%Z else Z.of_N n.

(** [x + y] *)
Definition add (x y : pyfloat) : pyfloat :=
  match x, y with
  | FNaN, _ | _, FNaN => FNaN
  | FInf a, FInf b => if Bool.eqb a b then FInf a else FNaN
  | FInf a, _ => FInf a
  | _, FInf b => FInf b
  | FZero a, FZero b => FZero (a && b)
  | FZero _, _ => y
  | _, FZero _ => x
  | FFin s1 m1 k1, FFin s2 m2 k2 =>
      let k := N.min k1 k2 in
      let z := (signed s1 (Npos m1 * 2 ^ (k1 - k))
                + signed s2 (Npos m2 * 2 ^ (k2 - k)))%Z in
      if (z =? 0)%Z then FZero false
      else round_units (z <? 0)%Z (Z.abs_N z * 2 ^ (k + 3))
  end.

(** [round(x, 2)]: the exact value of [x] is rounded to two decimals (ties
    to even) and the resulting decimal is converted back to a double.  NaN,
    infinities and zeros round to themselves. *)
Definition round2 (x : pyfloat) : pyfloat :=
  match x with
  | FFin neg m k =>
      let r := if (1074 <=? k)%N then (100 * Npos m * 2 ^ (k - 1074))%N
               else rne_shift (100 * Npos m) (1074 - k) in
      round_ratio neg r 100
  | _ => x
  end.

End PyFloat.
Import PyFloat.

(** ** Python values

    The values [json.loads] can build, which are all the values the handlers
    inspect.  A [dict] keeps its keys in insertion order; its keys are
    strings. *)

Inductive pyval : Type :=
| PNone
| PBool (b : bool)
| PInt (z : Z)
| PFloat (f : pyfloat)
| PStr (s : pystr)
| PList (l : list pyval)
| PDict (d : list (pystr * pyval)).

Definition pydict := list (pystr * pyval).

(** [d[key] = v] *)
Fixpoint dict_set (d : pydict) (key : pystr) (v : pyval) : pydict :=
  match d with
  | [] => [(key, v)]
  | (k, x) :: r => if PyStr.eqb k key then (k, v) :: r
                   else (k, x) :: dict_set r key v
  end.

Fixpoint dict_lookup (d : pydict) (key : pystr) : option pyval :=
  match d with
  | [] => None
  | (k, x) :: r => if PyStr.eqb k key then Some x else dict_lookup r key
  end.

(** [d.get(key, default)] *)
Definition dict_get (d : pydict) (key : pystr) (default : pyval) : pyval :=
  match dict_lookup d key with
  | Some v => v
  | None => default
  end.

(** [bool(v)] *)
Definition py_truthy (v : pyval) : bool :=
  match v with
  | PNone => false
  | PBool b => b
  | PInt z => negb (z =? 0)%Z
  | PFloat f => PyFloat.truthy f
  | PStr s => match s with [] => false | _ => true end
  | PList l => match l with [] => false | _ => true end
  | PDict d => match d with [] => false | _ => true end
  end.

(** [a or b] *)
Definition py_or (a b : pyval) : pyval :=
  if py_truthy a then a else b.

(** [isinstance(v, dict)] *)
Definition is_dict (v : pyval) : bool :=
  match v with
  | PDict _ => true
  | _ => false
  end.

(** [type(v).__name__] *)
Definition type_name (v : pyval) : pystr :=
  match v with
  | PNone => lit "NoneType"
  | PBool _ => lit "bool"
  | PInt _ => lit "int"
  | PFloat _ => lit "float"
  | PStr _ => lit "str"
  | PList _ => lit "list"
  | PDict _ => lit "dict"
  end.

(** ** [json.loads]

    The decoder of the standard library with its default settings, as the C
    scanner implements it: strict strings, [NaN], [Infinity] and [-Infinity]
    accepted, a later duplicate key overriding the earlier one.  The
    interpreter's recursion limit and its limit on the number of digits of an
    int are not modelled. *)

Module Json.

Local Open Scope N_scope.

(** Outcome of a scanner at a position: the value and the rest of the
    input, a decoding error, or the recursion budget of the model used up. *)
Inductive scan (A : Type) : Type :=
| Done (a : A) (rest : pystr)
| Fail
| NoFuel.
Arguments Fail {A}.
Arguments NoFuel {A}.

Definition is_ws (c : N) : bool :=
  (c =? 32) || (c =? 9) || (c =? 10) || (c =? 13).

Fixpoint skip_ws (s : pystr) : pystr :=
  match s with
  | c :: r => if is_ws c then skip_ws r else s
  | [] => []
  end.

Definition is_digit (c : N) : bool := (48 <=? c) && (c <=? 57).

Definition hex_val (c : N) : option N :=
  if (48 <=? c) && (c <=? 57) then Some (c - 48)
  else if (97 <=? c) && (c <=? 102) then Some (c - 87)
  else if (65 <=? c) && (c <=? 70) then Some (c - 55)
  else None.

Definition hex4 (a b c d : N) : option N :=
  match hex_val a, hex_val b, hex_val c, hex_val d with
  | Some x, Some y, Some z, Some w => Some (((x * 16 + y) * 16 + z) * 16 + w)
  | _, _, _, _ => None
  end.

Definition is_high_surrogate (c : N) : bool := (55296 <=? c) && (c <=? 56319).
Definition is_low_surrogate (c : N) : bool := (56320 <=? c) && (c <=? 57343).
Definition join_surrogates (hi lo : N) : N :=
  65536 + (N.lor (N.shiftl (hi - 55296) 10) (lo - 56320)).

(** The character a one-letter escape stands for. *)
Definition unescape (c : N) : option N :=
  if c =? 34 then Some 34
  else if c =? 92 then Some 92
  else if c =? 47 then Some 47
  else if c =? 98 then Some 8
  else if c =? 102 then Some 12
  else if c =? 110 then Some 10
  else if c =? 114 then Some 13
  else if c =? 116 then Some 9
  else None.

(** [scanstring] in strict mode, from just after the opening quote: the
    decoded string and the input after the closing quote.  [acc] holds the
    decoded characters so far, last first. *)
Fixpoint scanstring (s : pystr) (acc : pystr) : option (pystr * pystr) :=
  match s with
  | [] => None
  | c :: r =>
      if c =? 34 then Some (rev acc, r)
      else if c =? 92 then
        match r with
        | [] => None
        | e :: r1 =>
            if e =? 117 then
              match r1 with
              | h1 :: h2 :: h3 :: h4 :: r2 =>
                  match hex4 h1 h2 h3 h4 with
                  | None => None
                  | Some u =>
                      match r2 with
                      | b :: u2 :: g1 :: g2 :: g3 :: g4 :: r3 =>
                          if is_high_surrogate u && (b =? 92) && (u2 =? 117)
                             && match r3 with [] => false | _ => true end
                          then match hex4 g1 g2 g3 g4 with
                               | None => None
                               | Some lo =>
                                   if is_low_surrogate lo
                                   then scanstring r3 (join_surrogates u lo :: acc)
                                   else scanstring r2 (u :: acc)
                               end
                          else scanstring r2 (u :: acc)
                      | _ => scanstring r2 (u :: acc)
                      end
                  end
              | _ => None
              end
            else
              match unescape e with
              | Some x => scanstring r1 (x :: acc)
              | None => None
              end
        end
      else if c <=? 31 then None
      else scanstring r (c :: acc)
  end.

(** The longest prefix of decimal digits, and what follows it. *)
Fixpoint span_digits (s : pystr) : pystr * pystr :=
  match s with
  | c :: r => if is_digit c
              then let '(ds, rest) := span_digits r in (c :: ds, rest)
              else ([], s)
  | [] => ([], [])
  end.

Definition digits_value (ds : pystr) : N :=
  fold_left (fun a c => a * 10 + (c - 48)) ds 0.

(** The integer part of a number: a single [0], or a non-zero digit followed
    by digits. *)
Definition int_part (s : pystr) : option (pystr * pystr) :=
  match s with
  | c :: r =>
      if c =? 48 then Some ([c], r)
      else if (49 <=? c) && (c <=? 57)
      then let '(ds, rest) := span_digits r in Some (c :: ds, rest)
      else None
  | [] => None
  end.

(** The fraction, when a dot is followed by a digit. *)
Definition frac_part (s : pystr) : option (pystr * pystr) :=
  match s with
  | dot :: r =>
      if dot =? 46
      then match span_digits r with
           | ([], _) => None
           | (ds, rest) => Some (ds, rest)
           end
      else None
  | [] => None
  end.

(** The exponent, when [e] or [E] and an optional sign are followed by a
    digit. *)
Definition exp_part (s : pystr) : option (Z * pystr) :=
  match s with
  | e :: r =>
      if (e =? 101) || (e =? 69)
      then
        let '(neg, r1) :=
          match r with
          | sg :: r' => if sg =? 45 then (true, r')
                        else if sg =? 43 then (false, r') else (false, r)
          | [] => (false, r)
          end in
        match span_digits r1 with
        | ([], _) => None
        | (ds, rest) =>
            let v := Z.of_N (digits_value ds) in
            Some (if neg then (- v)%Z else v, rest)
        end
      else None
  | [] => None
  end.

(** [_match_number]: an int when the literal has neither fraction nor
    exponent, a float otherwise. *)
Definition match_number (s : pystr) : scan pyval :=
  let '(neg, s1) :=
    match s with
    | c :: r => if c =? 45 then (true, r) else (false, s)
    | [] => (false, s)
    end in
  match int_part s1 with
  | None => Fail
  | Some (ip, s2) =>
      let '(fp, s3) := match frac_part s2 with
                       | Some (ds, rest) => (Some ds, rest)
                       | None => (None, s2)
                       end in
      let '(ep, s4) := match exp_part s3 with
                       | Some (e, rest) => (Some e, rest)
                       | None => (None, s3)
                       end in
      match fp, ep with
      | None, None =>
          let v := Z.of_N (digits_value ip) in
          Done (PInt (if neg then (- v)%Z else v)) s4
      | _, _ =>
          let fds := match fp with Some ds => ds | None => [] end in
          let e := match ep with Some e => e | None => 0%Z end in
          Done (PFloat (PyFloat.of_decimal neg (digits_value (ip ++ fds))
                          (e - Z.of_nat (List.length fds))%Z)) s4
      end
  end.

(** [s] starts with [p]: what follows the prefix. *)
Fixpoint strip_prefix (p s : pystr) : option pystr :=
  match p, s with
  | [], _ => Some s
  | a :: p', b :: s' => if a =? b then strip_prefix p' s' else None
  | _ :: _, [] => None
  end.

(** A named constant or a number. *)
Definition scan_atom (s : pystr) : scan pyval :=
  match strip_prefix (lit "null") s with
  | Some r => Done PNone r
  | None =>
  match strip_prefix (lit "true") s with
  | Some r => Done (PBool true) r
  | None =>
  match strip_prefix (lit "false") s with
  | Some r => Done (PBool false) r
  | None =>
  match strip_prefix (lit "NaN") s with
  | Some r => Done (PFloat FNaN) r
  | None =>
  match strip_prefix (lit "Infinity") s with
  | Some r => Done (PFloat (FInf false)) r
  | None =>
  match strip_prefix (lit "-Infinity") s with
  | Some r => Done (PFloat (FInf true)) r
  | None => match_number s
  end end end end end end.

(** [scan_once] with the loops of [JSONObject] and [JSONArray].  [fuel]
    bounds the number of nested calls; twice the length of the input and
    one more is enough for any input ([decode_fuel] below). *)
Fixpoint scan_once (fuel : nat) (s : pystr) {struct fuel} : scan pyval :=
  match fuel with
  | O => NoFuel
  | S fuel' =>
      match s with
      | [] => Fail
      | c :: r =>
          if c =? 34 then
            match scanstring r [] with
            | Some (str, rest) => Done (PStr str) rest
            | None => Fail
            end
          else if c =? 123 then
            match skip_ws r with
            | x :: r' => if x =? 125 then Done (PDict []) r'
                         else parse_object fuel' [] (x :: r')
            | [] => Fail
            end
          else if c =? 91 then
            match skip_ws r with
            | x :: r' => if x =? 93 then Done (PList []) r'
                         else parse_array fuel' [] (x :: r')
            | [] => Fail
            end
          else scan_atom s
      end
  end

(** One member of an object and the members after it; [acc] is the dict
    built so far. *)
with parse_object (fuel : nat) (acc : pydict) (s : pystr) {struct fuel}
  : scan pyval :=
  match fuel with
  | O => NoFuel
  | S fuel' =>
      match s with
      | q :: r =>
          if q =? 34 then
            match scanstring r [] with
            | None => Fail
            | Some (key, r1) =>
                match skip_ws r1 with
                | colon :: r2 =>
                    if colon =? 58 then
                      match scan_once fuel' (skip_ws r2) with
                      | Done v r3 =>
                          let acc' := dict_set acc key v in
                          match skip_ws r3 with
                          | x :: r4 =>
                              if x =? 125 then Done (PDict acc') r4
                              else if x =? 44
                                   then parse_object fuel' acc' (skip_ws r4)
                                   else Fail
                          | [] => Fail
                          end
                      | Fail => Fail
                      | NoFuel => NoFuel
                      end
                    else Fail
                | [] => Fail
                end
            end
          else Fail
      | [] => Fail
      end
  end

(** One element of an array and the elements after it; [acc] holds the
    elements so far, last first. *)
with parse_array (fuel : nat) (acc : list pyval) (s : pystr) {struct fuel}
  : scan pyval :=
  match fuel with
  | O => NoFuel
  | S fuel' =>
      match scan_once fuel' s with
      | Done v r1 =>
          match skip_ws r1 with
          | x :: r2 =>
              if x =? 93 then Done (PList (rev (v :: acc))) r2
              else if x =? 44 then parse_array fuel' (v :: acc) (skip_ws r2)
              else Fail
          | [] => Fail
          end
      | Fail => Fail
      | NoFuel => NoFuel
      end
  end.

(** [s.startswith('\ufeff')] *)
Definition starts_with_bom (s : pystr) : bool :=
  match s with
  | c :: _ => c =? 65279
  | [] => false
  end.

(** [JSONDecoder.decode] behind [json.loads]: no byte order mark, then one
    value surrounded by optional whitespace and nothing else. *)
Definition decode (s : pystr) : scan pyval :=
  if starts_with_bom s then Fail
  else
    match scan_once (S (2 * List.length s)) (skip_ws s) with
    | Done v rest => match skip_ws rest with
                     | [] => Done v []
                     | _ :: _ => Fail
                     end
    | Fail => Fail
    | NoFuel => NoFuel
    end.

(** [json.loads(s)]: the value, or [None] when it raises. *)
Definition loads (s : pystr) : option pyval :=
  match decode s with
  | Done v _ => Some v
  | _ => None
  end.

End Json.

(** ** Exceptions and results *)

Inductive exc_class : Type :=
| AttributeError
| TypeError
| ValueError
| OverflowError
| OtherError (cls : pystr).

(** An exception object: FastAPI's [HTTPException], or any other subclass of
    [Exception] with its message ([str(e)]). *)
Inductive pyexc : Type :=
| HTTPException (status_code : Z) (detail : pystr)
| Exception (cls : exc_class) (msg : pystr).

(** The outcome of running Python code: a value is returned or an exception
    is raised. *)
Inductive result (A : Type) : Type :=
| Ret (a : A)
| Raise (e : pyexc).
Arguments Raise {A}.

Definition bind {A B : Type} (r : result A) (k : A -> result B) : result B :=
  match r with
  | Ret a => k a
  | Raise e => Raise e
  end.

Notation "x <- c ;; k" := (bind c (fun x => k))
  (at level 61, c at next level, right associativity).

(** ** Data model of [main.py] *)

Record IngredientOut : Type := {
  name : pystr;
  carbon_kg : pyfloat
}.

(** What a handler returns.  The serialization of the response by the
    framework is not modelled. *)
Record EstimateOut : Type := {
  dish : pystr;
  estimated_carbon_kg : pyfloat;
  ingredients : list IngredientOut
}.

(** The request body of [POST /estimate]; [data_dish] is its field [dish]. *)
Record EstimateIn : Type := {
  data_dish : pystr
}.

(** What the image handler uses of an [UploadFile]: the bytes [read()]
    returns and the declared media type. *)
Record UploadFile : Type := {
  content : list byte;
  content_type : option pystr
}.

Definition MODEL_NAME : pystr := lit "gemini-2.5-flash".

(** ** The model client

    [generate_content] receives either the instruction alone or the list of
    the instruction and the image part.  The response object may lack the
    [text] attribute, reading it may raise, and it may hold [None] or a
    string. *)

Inductive contents : Type :=
| Prompt (instruction : pystr)
| Parts (instruction : pystr) (mime_type : pystr) (data : list byte).

Inductive attribute : Type :=
| AttrMissing
| AttrRaises (e : pyexc)
| AttrValue (v : option pystr).

Record response : Type := {
  text : attribute
}.

Record GenerativeModel : Type := {
  generate_content : contents -> result response
}.

(** The [genai] module, when its import succeeded. *)
Record genai_module : Type := {
  configure : pystr -> result unit;
  new_GenerativeModel : pystr -> result GenerativeModel
}.

(** [configure_gemini()], given the value of [GEMINI_API_KEY] in the
    environment and the imported module.  An exception raised by
    [genai.configure] is not caught. *)
Definition configure_gemini (api_key : option pystr) (genai : option genai_module)
  : result (option GenerativeModel) :=
  match api_key, genai with
  | Some (c :: key), Some g =>
      _ <- configure g (c :: key) ;;
      match new_GenerativeModel g MODEL_NAME with
      | Ret m => Ret (Some m)
      | Raise _ => Ret None
      end
  | _, _ => Ret None
  end.

(** ** Prompt builder *)

Definition build_instruction_for_text (dish : pystr) : pystr :=
  lit "You are a sustainability assistant. Given a dish name, infer 3-8 likely ingredients "
  +++ lit "and estimate their carbon footprint in kg CO2e each. Return STRICT JSON with keys: "
  +++ lit "dish (string), estimated_carbon_kg (number), ingredients (array of {name, carbon_kg}). "
  +++ lit "Use reasonable, order-of-magnitude values. Do not include any extra commentary."
  +++ [10%N; 10%N]
  +++ lit "Dish: " +++ dish.

Definition build_instruction_for_image : pystr :=
  lit "You are a vision sustainability assistant. Analyze the image to identify the food dish "
  +++ lit "or its main ingredients, then produce a JSON object with: dish (string guess), "
  +++ lit "estimated_carbon_kg (number), ingredients (array of {name, carbon_kg})."
  +++ lit " Return STRICT JSON only.".

(** ** Tolerant JSON recovery *)

(** [safe_parse_json(text)].  [PNone] is Python's [None]; the function never
    raises. *)
Definition safe_parse_json (text : pystr) : pyval :=
  match Json.loads text with
  | Some v => v
  | None =>
      let start := find 123 text in
      let end_ := rfind 125 text in
      match start, end_ with
      | Some s, Some e =>
          if (s <? e)%nat then
            match Json.loads (slice text s (e + 1)) with
            | Some v => v
            | None => PNone
            end
          else PNone
      | _, _ => PNone
      end
  end.

(** ** Shape coercion and the handlers *)

(** Two builtins are left abstract: [repr] of a value, which depends on the
    Unicode database and on the shortest-digits printing of floats, and
    [float] on a string ([None] when it raises [ValueError]), which accepts
    the decimal digits of every script. *)
Class Builtins : Type := {
  py_repr : pyval -> pystr;
  float_of_str : pystr -> option pyfloat
}.

Section Handlers.

Context {builtins : Builtins}.

(** [str(v)]: for every value but a string, its [repr]. *)
Definition py_str (v : pyval) : pystr :=
  match v with
  | PStr s => s
  | _ => py_repr v
  end.

(** [float(v)] *)
Definition py_float (v : pyval) : result pyfloat :=
  match v with
  | PFloat f => Ret f
  | PInt z =>
      match PyFloat.of_int z with
      | Some f => Ret f
      | None => Raise (Exception OverflowError (lit "int too large to convert to float"))
      end
  | PBool b => Ret (if b then FFin false (2 ^ 52) 1022 else pos_zero)
  | PStr s =>
      match float_of_str s with
      | Some f => Ret f
      | None => Raise (Exception ValueError
                         (lit "could not convert string to float: " +++ py_repr v))
      end
  | _ => Raise (Exception TypeError
                  (lit "float() argument must be a string or a real number, not '"
                   +++ type_name v +++ lit "'"))
  end.

(** [v.get(key, default)]: only a dict has the method. *)
Definition py_get (v : pyval) (key : pystr) (default : pyval) : result pyval :=
  match v with
  | PDict d => Ret (dict_get d key default)
  | _ => Raise (Exception AttributeError
                  (lit "'" +++ type_name v +++ lit "' object has no attribute 'get'"))
  end.

(** The items [for it in v] visits: the elements of a list, the keys of a
    dict, the characters of a string. *)
Definition py_iter (v : pyval) : result (list pyval) :=
  match v with
  | PList l => Ret l
  | PDict d => Ret (map (fun kv => PStr (fst kv)) d)
  | PStr s => Ret (map (fun c => PStr [c]) s)
  | _ => Raise (Exception TypeError
                  (lit "'" +++ type_name v +++ lit "' object is not iterable"))
  end.

(** The list comprehension building the ingredients: items that are not
    dicts are skipped, and the first failing [float] ends it. *)
Fixpoint build_ingredients (items : list pyval) : result (list IngredientOut) :=
  match items with
  | [] => Ret []
  | PDict it :: rest =>
      let n := py_str (dict_get it (lit "name") (PStr (lit "Unknown"))) in
      c <- py_float (dict_get it (lit "carbon_kg") (PFloat pos_zero)) ;;
      tl <- build_ingredients rest ;;
      Ret ({| name := n; carbon_kg := c |} :: tl)
  | _ :: rest => build_ingredients rest
  end.

(** [sum(xs)] over floats: starts from the int [0], which the first addition
    converts to [0.0].  The additions are made from left to right, each one
    rounded; CPython 3.12 and later also carry a compensation term, which
    can change the last bits of the sum and is not modelled. *)
Definition py_sum (xs : list pyfloat) : pyval :=
  fold_left (fun acc x =>
               PFloat (PyFloat.add (match acc with PFloat a => a | _ => pos_zero end) x))
            xs (PInt 0).

(** [round(v, 2)] *)
Definition py_round2 (v : pyval) : result pyval :=
  match v with
  | PFloat f => Ret (PFloat (PyFloat.round2 f))
  | PInt z => Ret (PInt z)
  | PBool b => Ret (PInt (if b then 1 else 0))
  | _ => Raise (Exception TypeError
                  (lit "type " +++ type_name v +++ lit " doesn't define __round__ method"))
  end.

(** Validation of a value for a [float] field of a pydantic model. *)
Definition validate_float (v : pyval) : result pyfloat :=
  match v with
  | PFloat f => Ret f
  | PInt z =>
      match PyFloat.of_int z with
      | Some f => Ret f
      | None => Raise (Exception ValueError (lit "validation error for EstimateOut"))
      end
  | _ => Raise (Exception ValueError (lit "validation error for EstimateOut"))
  end.

(** The object the handlers coerce: what was recovered, or the fallback when
    that is falsy. *)
Definition fallback (fallback_dish : pystr) : pyval :=
  PDict [(lit "dish", PStr fallback_dish);
         (lit "ingredients", PList []);
         (lit "estimated_carbon_kg", PInt 0)].

(** Lines 127-137 of [estimate_text] and 173-184 of [estimate_image]: the
    coercion of [parsed] into the result.  The two handlers differ only in
    the dish they fall back to. *)
Definition coerce_shape (fallback_dish : pystr) (parsed : pyval) : result EstimateOut :=
  raw <- py_get parsed (lit "ingredients") (PList []) ;;
  items <- py_iter (py_or raw (PList [])) ;;
  ingredients <- build_ingredients items ;;
  total <- py_get parsed (lit "estimated_carbon_kg") PNone ;;
  total_val <- match total with
               | PNone => Ret (py_sum (map carbon_kg ingredients))
               | _ => f <- py_float total ;; Ret (PFloat f)
               end ;;
  d <- py_get parsed (lit "dish") (PStr fallback_dish) ;;
  rounded <- py_round2 (py_or total_val (PFloat pos_zero)) ;;
  est <- validate_float rounded ;;
  Ret {| dish := py_str d; estimated_carbon_kg := est; ingredients := ingredients |}.

(** Lines 126-137 and 172-184: [parsed] is what was recovered from the text,
    or the fallback when that is falsy. *)
Definition normalize (fallback_dish : pystr) (text : pystr) : result EstimateOut :=
  let parsed := py_or (safe_parse_json text) (fallback fallback_dish) in
  coerce_shape fallback_dish parsed.

(** [getattr(response, "text", None) or ""] *)
Definition response_text (r : response) : result pystr :=
  match text r with
  | AttrMissing => Ret []
  | AttrRaises (Exception AttributeError _) => Ret []
  | AttrRaises e => Raise e
  | AttrValue None => Ret []
  | AttrValue (Some s) => Ret s
  end.

(** The two [except] clauses of the handlers: an [HTTPException] passes, any
    other exception becomes a 502 carrying its text. *)
Definition handle_errors {A : Type} (r : result A) : result A :=
  match r with
  | Raise (Exception _ msg) => Raise (HTTPException 502 (lit "Model error: " +++ msg))
  | _ => r
  end.

Definition not_configured : pystr :=
  lit "Gemini client not configured. Ensure GEMINI_API_KEY and google-generativeai are set.".

(** [POST /estimate].  The second component lists the calls made to
    [generate_content], in order. *)
Definition estimate_text (model : option GenerativeModel) (data : EstimateIn)
  : result EstimateOut * list contents :=
  let dish := strip (data_dish data) in
  match dish with
  | [] => (Raise (HTTPException 400 (lit "'dish' must be a non-empty string")), [])
  | _ :: _ =>
      match model with
      | None => (Raise (HTTPException 500 not_configured), [])
      | Some m =>
          let instruction := build_instruction_for_text dish in
          (handle_errors
             (response <- generate_content m (Prompt instruction) ;;
              text <- response_text response ;;
              normalize dish text),
           [Prompt instruction])
      end
  end.

(** [POST /estimate/image] *)
Definition estimate_image (model : option GenerativeModel) (image : UploadFile)
  : result EstimateOut * list contents :=
  match content image with
  | [] => (Raise (HTTPException 400 (lit "Empty image upload")), [])
  | _ :: _ =>
      match model with
      | None => (Raise (HTTPException 500 not_configured), [])
      | Some m =>
          let instruction := build_instruction_for_image in
          let mime := match content_type image with
                      | Some (c :: t) => c :: t
                      | _ => lit "image/jpeg"
                      end in
          let parts := Parts instruction mime (content image) in
          (handle_errors
             (response <- generate_content m parts ;;
              text <- response_text response ;;
              normalize (lit "Uploaded Dish") text),
           [parts])
      end
  end.

(** ** Specification-side definitions *)

(** [i] is the position of the first (last) occurrence of [c] in [s]. *)
Definition first_index (c : N) (s : pystr) (i : nat) : Prop :=
  nth_error s i = Some c /\ forall j, j < i -> nth_error s j <> Some c.

Definition last_index (c : N) (s : pystr) (i : nat) : Prop :=
  nth_error s i = Some c /\ forall j, i < j -> nth_error s j <> Some c.

(** The characters of [s] at positions [i] to [j], both included. *)
Definition between (s : pystr) (i j : nat) : pystr :=
  firstn (S j - i) (skipn i s).

(** JSON recovery as the specification words it: the whole text is parsed;
    failing that, the text from the first opening brace to the last closing
    brace, when the latter comes after the former; failing that, or without
    such braces, there is no object. *)
Inductive recovery (text : pystr) : pyval -> Prop :=
| recovery_whole v :
    Json.loads text = Some v ->
    recovery text v
| recovery_braces s e v :
    Json.loads text = None ->
    first_index 123 text s -> last_index 125 text e -> s < e ->
    Json.loads (between text s e) = Some v ->
    recovery text v
| recovery_braces_fail s e :
    Json.loads text = None ->
    first_index 123 text s -> last_index 125 text e -> s < e ->
    Json.loads (between text s e) = None ->
    recovery text PNone
| recovery_no_braces :
    Json.loads text = None ->
    (forall s e, first_index 123 text s -> last_index 125 text e -> e <= s) ->
    recovery text PNone.

(** A request to one of the two endpoints. *)
Inductive request : Type :=
| TextRequest (data : EstimateIn)
| ImageRequest (image : UploadFile).

Definition serve (model : option GenerativeModel) (req : request)
  : result EstimateOut * list contents :=
  match req with
  | TextRequest data => estimate_text model data
  | ImageRequest image => estimate_image model image
  end.

(** A request that passes validation. *)
Definition valid (req : request) : Prop :=
  match req with
  | TextRequest data => strip (data_dish data) <> []
  | ImageRequest image => content image <> []
  end.

(** The dish a request falls back to. *)
Definition fallback_dish_of (req : request) : pystr :=
  match req with
  | TextRequest data => strip (data_dish data)
  | ImageRequest _ => lit "Uploaded Dish"
  end.

(** What a valid request sends to the model. *)
Definition sent (req : request) : contents :=
  match req with
  | TextRequest data => Prompt (build_instruction_for_text (strip (data_dish data)))
  | ImageRequest image =>
      Parts build_instruction_for_image
            (match content_type image with
             | Some (c :: t) => c :: t
             | _ => lit "image/jpeg"
             end)
            (content image)
  end.

(** The model answers the call [c] with the raw text [t]. *)
Definition answers (m : GenerativeModel) (c : contents) (t : pystr) : Prop :=
  exists r, generate_content m c = Ret r /\ response_text r = Ret t.

(** The Ingredient the specification asks for an entry that is a mapping. *)
Definition ingredient_of (it : pyval) (ing : IngredientOut) : Prop :=
  match it with
  | PDict f =>
      name ing = match dict_lookup f (lit "name") with
                 | Some v => py_str v
                 | None => lit "Unknown"
                 end
      /\ match dict_lookup f (lit "carbon_kg") with
         | Some v => py_float v = Ret (carbon_kg ing)
         | None => carbon_kg ing = pos_zero
         end
  | _ => False
  end.

(** The [carbon_kg] of an entry is absent or coerces to a float. *)
Definition carbon_coerces (it : pyval) : Prop :=
  match it with
  | PDict f =>
      match dict_lookup f (lit "carbon_kg") with
      | Some v => exists c, py_float v = Ret c
      | None => True
      end
  | _ => True
  end.

(** The top-level total is absent, [None], or coerces to a float. *)
Definition total_coerces (d : pydict) : Prop :=
  match dict_lookup d (lit "estimated_carbon_kg") with
  | Some PNone | None => True
  | Some v => exists c, py_float v = Ret c
  end.

(** The items the handlers iterate over, for a recovered object [d]. *)
Definition items_of (d : pydict) : result (list pyval) :=
  py_iter (py_or (dict_get d (lit "ingredients") (PList [])) (PList [])).

(** How the handlers use the value found at the [ingredients] key: the
    elements of a truthy list; nothing for an absent or falsy value and for
    a string or an object, whose characters or keys are not mappings; and
    no iteration at all for a truthy value of another type. *)
Inductive ingredients_use : Type :=
| UseList (l : list pyval)
| UseNothing
| NotIterable (type : pystr).

Definition ingredients_source (o : option pyval) : ingredients_use :=
  match o with
  | None => UseNothing
  | Some v =>
      if py_truthy v then
        match v with
        | PList l => UseList l
        | PStr _ | PDict _ => UseNothing
        | _ => NotIterable (type_name v)
        end
      else UseNothing
  end.

(** The sum of floats as a float: [0.0] for none. *)
Definition float_sum (xs : list pyfloat) : pyfloat :=
  fold_left PyFloat.add xs pos_zero.

(** [f or 0.0] on a float. *)
Definition or_zero (f : pyfloat) : pyfloat :=
  if PyFloat.truthy f then f else pos_zero.

End Handlers.

(** A model client that answers every call with the text [t]. *)
Definition answering (t : pystr) : GenerativeModel :=
  {| generate_content := fun _ => Ret {| text := AttrValue (Some t) |} |}.

(** A model client whose every call raises [e]. *)
Definition failing (e : pyexc) : GenerativeModel :=
  {| generate_content := fun _ => Raise e |}.

(** A model client whose responses have [a] as their [text] attribute. *)
Definition responding (a : attribute) : GenerativeModel :=
  {| generate_content := fun _ => Ret {| text := a |} |}.

(** An instance of the two abstract builtins, for evaluating the handlers on
    inputs that reach neither: no string converts to a float and every
    [repr] is the same placeholder. *)
Definition sample_builtins : Builtins :=
  {| py_repr := fun _ => lit "<repr>"; float_of_str := fun _ => None |}.

(** ** Further specification-side definitions *)

(** The object a well-behaved model writes for an ingredient. *)
Definition entry_of (i : IngredientOut) : pyval :=
  PDict [(lit "name", PStr (name i)); (lit "carbon_kg", PFloat (carbon_kg i))].

(** The value at the [dish] key of what was recovered, when it is an
    object that has the key. *)
Definition recovered_dish (v : pyval) : option pyval :=
  match v with
  | PDict d => dict_lookup d (lit "dish")
  | _ => None
  end.

(** An exception that is not an [HTTPException]. *)
Definition plain (e : pyexc) : Prop := exists cls msg, e = Exception cls msg.

(** The sign bit of a float. *)
Definition is_negative (f : pyfloat) : bool :=
  match f with
  | FNaN => false
  | FInf neg | FZero neg | FFin neg _ _ => neg
  end.

(** [all(c.isspace() for c in s)] *)
Definition blank (s : pystr) : bool := forallb is_space s.

(** ** The demo client ([streamlit_frontend.py])

    What each tab does when its button is pressed, up to the request it
    posts: it shows an error, or posts to one of the two endpoints. *)

Inductive client_action : Type :=
| ShowError (msg : pystr)
| PostEstimate (payload : EstimateIn)
| PostImage (upload : UploadFile).

(** The search tab, lines 33-39. *)
Definition search_tab (dish : pystr) : client_action :=
  match strip dish with
  | [] => ShowError (lit "Please enter a dish name.")
  | _ :: _ => PostEstimate {| data_dish := strip dish |}
  end.

(** A file chosen in the uploader: its bytes and its media type. *)
Record UploadedFile : Type := {
  file_bytes : list byte;
  file_type : option pystr
}.

(** The vision tab, lines 57-63: the part is posted with the type of the
    file, or [image/jpeg] when it has none. *)
Definition vision_tab (uploaded : option UploadedFile) : client_action :=
  match uploaded with
  | None => ShowError (lit "Please upload an image.")
  | Some u =>
      PostImage {| content := file_bytes u;
                   content_type :=
                     Some (match file_type u with
                           | Some (c :: t) => c :: t
                           | _ => lit "image/jpeg"
                           end) |}
  end.

(** * Properties *)

Unset Implicit Arguments.

(** ** Strings *)

Lemma pystr_eqb_spec a b : reflect (a = b) (PyStr.eqb a b).
Proof.
  revert b. induction a as [|x a IH]; intros [|y b]; simpl;
    try (constructor; congruence).
  destruct (N.eqb_spec x y) as [->|Hn]; simpl.
  - destruct (IH b) as [->|Hn]; constructor; congruence.
  - constructor; congruence.
Qed.

Lemma pystr_eqb_refl a : PyStr.eqb a a = true.
Proof. destruct (pystr_eqb_spec a a); congruence. Qed.

Lemma find_first c s i : find c s = Some i <-> first_index c s i.
Proof.
  revert i. induction s as [|x s IH]; intros i; simpl.
  - split; [discriminate|]. intros [H _]. destruct i; discriminate.
  - destruct (N.eqb_spec x c) as [->|Hx].
    + split.
      * intros [= <-]. split; [reflexivity|]. intros j Hj. lia.
      * intros [Hi Hlt]. destruct i as [|i]; [reflexivity|].
        exfalso. apply (Hlt 0); [lia|reflexivity].
    + destruct (find c s) as [k|] eqn:Hf.
      * split.
        -- intros [= <-]. destruct (proj1 (IH k) eq_refl) as [Hk Hlt].
           split; [exact Hk|]. intros [|j] Hj; simpl.
           ++ congruence.
           ++ apply Hlt. lia.
        -- intros [Hi Hlt]. destruct i as [|i]; simpl in Hi; [congruence|].
           f_equal. assert (Hfi : first_index c s i).
           { split; [exact Hi|]. intros j Hj. apply (Hlt (S j)). lia. }
           apply IH in Hfi. congruence.
      * split; [discriminate|]. intros [Hi Hlt].
        destruct i as [|i]; simpl in Hi; [congruence|].
        assert (Hfi : first_index c s i).
        { split; [exact Hi|]. intros j Hj. apply (Hlt (S j)). lia. }
        apply IH in Hfi. discriminate.
Qed.

Lemma find_none c s : find c s = None <-> forall j, nth_error s j <> Some c.
Proof.
  induction s as [|x s IH]; simpl.
  - split; [intros _ [|j]; discriminate | reflexivity].
  - destruct (N.eqb_spec x c) as [->|Hx].
    + split; [discriminate|]. intros H. exfalso. apply (H 0). reflexivity.
    + destruct (find c s) as [k|].
      * split; [discriminate|]. intros H. exfalso.
        assert (Hs : forall j, nth_error s j <> Some c) by (intros j; apply (H (S j))).
        apply IH in Hs. discriminate.
      * split; [|reflexivity]. intros _ [|j]; simpl; [congruence|].
        apply IH. reflexivity.
Qed.

Lemma rfind_none c s : rfind c s = None <-> forall j, nth_error s j <> Some c.
Proof.
  induction s as [|x s IH]; simpl.
  - split; [intros _ [|j]; discriminate | reflexivity].
  - destruct (rfind c s) as [k|].
    + split; [discriminate|]. intros H. exfalso.
      assert (Hs : forall j, nth_error s j <> Some c) by (intros j; apply (H (S j))).
      apply IH in Hs. discriminate.
    + destruct (N.eqb_spec x c) as [->|Hx].
      * split; [discriminate|]. intros H. exfalso. apply (H 0). reflexivity.
      * split; [|reflexivity]. intros _ [|j]; simpl; [congruence|].
        apply IH. reflexivity.
Qed.

Lemma rfind_last c s i : rfind c s = Some i <-> last_index c s i.
Proof.
  revert i. induction s as [|x s IH]; intros i; simpl.
  - split; [discriminate|]. intros [H _]. destruct i; discriminate.
  - destruct (rfind c s) as [k|] eqn:Hf.
    + split.
      * intros [= <-]. destruct (proj1 (IH k) eq_refl) as [Hk Hgt].
        split; [exact Hk|]. intros [|j] Hj; [lia|]. simpl. apply Hgt. lia.
      * intros [Hi Hgt]. destruct i as [|i].
        -- exfalso. destruct (proj1 (IH k) eq_refl) as [Hk _].
           apply (Hgt (S k)); [lia|exact Hk].
        -- f_equal. assert (Hl : last_index c s i).
           { split; [exact Hi|]. intros j Hj. apply (Hgt (S j)). lia. }
           apply IH in Hl. congruence.
    + pose proof (proj1 (rfind_none c s) Hf) as Hno.
      destruct (N.eqb_spec x c) as [->|Hx].
      * split.
        -- intros [= <-]. split; [reflexivity|]. intros [|j] Hj; [lia|].
           simpl. apply Hno.
        -- intros [Hi Hgt]. destruct i as [|i]; [reflexivity|].
           simpl in Hi. exfalso. exact (Hno i Hi).
      * split; [discriminate|]. intros [Hi Hgt].
        destruct i as [|i]; simpl in Hi; [congruence|].
        exfalso. exact (Hno i Hi).
Qed.

Lemma first_index_unique c s i j : first_index c s i -> first_index c s j -> i = j.
Proof. intros Hi Hj. apply find_first in Hi, Hj. congruence. Qed.

Lemma last_index_unique c s i j : last_index c s i -> last_index c s j -> i = j.
Proof. intros Hi Hj. apply rfind_last in Hi, Hj. congruence. Qed.

Lemma slice_between s i j : slice s i (j + 1) = between s i j.
Proof. unfold slice, between. replace (j + 1) with (S j) by lia. reflexivity. Qed.

(** What [between] holds: the characters at positions [i], ..., [j]. *)
Lemma between_nth s i j n :
  nth_error (between s i j) n
  = if n <? S j - i then nth_error s (i + n) else None.
Proof.
  unfold between. destruct (Nat.ltb_spec n (S j - i)) as [Hlt|Hge].
  - rewrite nth_error_firstn. destruct (Nat.ltb_spec n (S j - i)); [|lia].
    apply nth_error_skipn.
  - apply nth_error_None. rewrite length_firstn. lia.
Qed.

(** ** The decoder never runs out of fuel *)

Lemma skip_ws_le s : List.length (Json.skip_ws s) <= List.length s.
Proof.
  induction s as [|c s IH]; simpl; [lia|].
  destruct (Json.is_ws c); simpl; lia.
Qed.

Ltac break_match_in H :=
  repeat (match type of H with
          | context [match ?x with _ => _ end] => destruct x eqn:?
          | context [if ?b then _ else _] => destruct b eqn:?
          end; try discriminate H).

Lemma scanstring_lt n :
  forall s acc str r,
    List.length s <= n ->
    Json.scanstring s acc = Some (str, r) ->
    List.length r < List.length s.
Proof.
  induction n as [|n IH]; intros s acc str r Hn H;
    (destruct s as [|c s]; [discriminate H|]); cbn [List.length] in Hn; [lia|].
  cbn [Json.scanstring] in H. break_match_in H;
    try (injection H as <- <-; cbn [List.length]; lia);
    apply IH in H; cbn [List.length] in *; lia.
Qed.

Lemma span_digits_le s : List.length (snd (Json.span_digits s)) <= List.length s.
Proof.
  induction s as [|c s IH]; simpl; [lia|].
  destruct (Json.is_digit c); [|simpl; lia].
  destruct (Json.span_digits s) as [ds rest]. simpl in *. lia.
Qed.

Lemma strip_prefix_length p : forall s r,
  Json.strip_prefix p s = Some r -> List.length r + List.length p = List.length s.
Proof.
  induction p as [|a p IH]; intros [|b s] r H; simpl in *;
    try discriminate; try (injection H as <-; simpl; lia).
  destruct (N.eqb a b); [|discriminate]. apply IH in H. lia.
Qed.

Lemma int_part_lt s ip r :
  Json.int_part s = Some (ip, r) -> List.length r < List.length s.
Proof.
  unfold Json.int_part. destruct s as [|c s]; [discriminate|].
  destruct (N.eqb c 48).
  - intros [= <- <-]. simpl. lia.
  - destruct (_ && _); [|discriminate].
    pose proof (span_digits_le s) as Hle.
    destruct (Json.span_digits s) as [ds rest]. intros [= <- <-].
    simpl in *. lia.
Qed.

Lemma frac_part_lt s ds r :
  Json.frac_part s = Some (ds, r) -> List.length r < List.length s.
Proof.
  unfold Json.frac_part. destruct s as [|c s]; [discriminate|].
  destruct (N.eqb c 46); [|discriminate].
  pose proof (span_digits_le s) as Hle.
  destruct (Json.span_digits s) as [[|d ds'] rest]; [discriminate|].
  intros [= <- <-]. simpl in *. lia.
Qed.

Lemma exp_part_lt s e r :
  Json.exp_part s = Some (e, r) -> List.length r < List.length s.
Proof.
  unfold Json.exp_part. destruct s as [|c s]; [discriminate|].
  destruct (_ || _); [|discriminate].
  assert (Hsign : forall neg r1,
             match s with
             | sg :: r' => if N.eqb sg 45 then (true, r')
                           else if N.eqb sg 43 then (false, r') else (false, s)
             | [] => (false, s)
             end = (neg, r1) -> List.length r1 <= List.length s).
  { intros neg r1. destruct s as [|sg r']; [intros [= <- <-]; lia|].
    destruct (N.eqb sg 45); [intros [= <- <-]; simpl; lia|].
    destruct (N.eqb sg 43); intros [= <- <-]; simpl; lia. }
  destruct (match s with [] => _ | _ :: _ => _ end) as [neg r1].
  specialize (Hsign neg r1 eq_refl).
  pose proof (span_digits_le r1) as Hle.
  destruct (Json.span_digits r1) as [[|d ds'] rest]; [discriminate|].
  intros [= <- <-]. simpl in *. lia.
Qed.

Lemma match_number_lt s v r :
  Json.match_number s = Json.Done v r -> List.length r < List.length s.
Proof.
  unfold Json.match_number.
  assert (Hsign : forall neg s1,
             match s with
             | c :: r0 => if N.eqb c 45 then (true, r0) else (false, s)
             | [] => (false, s)
             end = (neg, s1) -> List.length s1 <= List.length s).
  { intros neg s1. destruct s as [|c r0]; [intros [= <- <-]; lia|].
    destruct (N.eqb c 45); intros [= <- <-]; simpl; lia. }
  destruct (match s with [] => _ | _ :: _ => _ end) as [neg s1].
  specialize (Hsign neg s1 eq_refl).
  destruct (Json.int_part s1) as [[ip s2]|] eqn:Hi; [|discriminate].
  apply int_part_lt in Hi.
  destruct (Json.frac_part s2) as [[fds s3]|] eqn:Hf;
    [apply frac_part_lt in Hf|];
    (destruct (Json.exp_part _) as [[e s4]|] eqn:He;
     [apply exp_part_lt in He|]);
    intros [= <- <-]; lia.
Qed.

Lemma match_number_fuel s : Json.match_number s <> Json.NoFuel.
Proof.
  unfold Json.match_number. 
  repeat match goal with
         | |- context [match ?x with _ => _ end] => destruct x
         | |- context [if ?b then _ else _] => destruct b
         end; discriminate.
Qed.

Lemma scan_atom_lt s v r :
  Json.scan_atom s = Json.Done v r -> List.length r < List.length s.
Proof.
  unfold Json.scan_atom. intros H.
  repeat match type of H with
         | context [Json.strip_prefix ?p s] =>
             let E := fresh "E" in
             destruct (Json.strip_prefix p s) eqn:E;
             [apply strip_prefix_length in E; injection H as ? ?; subst;
              revert E; vm_compute List.length at 2; lia|]
         end.
  apply match_number_lt in H. exact H.
Qed.

Lemma scan_atom_fuel s : Json.scan_atom s <> Json.NoFuel.
Proof.
  unfold Json.scan_atom.
  repeat match goal with
         | |- context [Json.strip_prefix ?p s] =>
             destruct (Json.strip_prefix p s); [discriminate|]
         end.
  apply match_number_fuel.
Qed.

(** Length facts for the hypotheses left by a case analysis of a scanner. *)
Ltac scanner_lengths :=
  repeat match goal with
         | H : Json.scanstring ?s ?a = Some (_, _) |- _ =>
             apply (scanstring_lt (List.length s) s a _ _ (le_n _)) in H
         | H : Json.skip_ws ?s = _ |- _ =>
             let L := fresh "L" in
             pose proof (skip_ws_le s) as L; rewrite H in L; clear H
         end;
  cbn [List.length] in *.

(** A scanner that succeeds consumes at least one character. *)
Lemma scan_shrinks fuel :
  (forall s v r, Json.scan_once fuel s = Json.Done v r ->
                 List.length r < List.length s)
  /\ (forall acc s v r, Json.parse_object fuel acc s = Json.Done v r ->
                        List.length r < List.length s)
  /\ (forall acc s v r, Json.parse_array fuel acc s = Json.Done v r ->
                        List.length r < List.length s).
Proof.
  induction fuel as [|f (IHs & IHo & IHa)];
    [repeat split; intros; discriminate|].
  split; [|split].
  - intros s v r H. destruct s as [|c s]; [discriminate|].
    cbn [Json.scan_once] in H.
    destruct (N.eqb c 34).
    { destruct (Json.scanstring s []) as [[str rest]|] eqn:E; [|discriminate].
      injection H as <- <-. scanner_lengths. lia. }
    destruct (N.eqb c 123).
    { destruct (Json.skip_ws s) as [|x r'] eqn:E; [discriminate|].
      destruct (N.eqb x 125).
      - injection H as <- <-. scanner_lengths. lia.
      - apply IHo in H. scanner_lengths. lia. }
    destruct (N.eqb c 91).
    { destruct (Json.skip_ws s) as [|x r'] eqn:E; [discriminate|].
      destruct (N.eqb x 93).
      - injection H as <- <-. scanner_lengths. lia.
      - apply IHa in H. scanner_lengths. lia. }
    apply scan_atom_lt in H. exact H.
  - intros acc s v r H. cbn [Json.parse_object] in H.
    destruct s as [|q s]; [discriminate|].
    destruct (N.eqb q 34); [|discriminate].
    destruct (Json.scanstring s []) as [[key r1]|] eqn:E1; [|discriminate].
    destruct (Json.skip_ws r1) as [|colon r2] eqn:E2; [discriminate|].
    destruct (N.eqb colon 58); [|discriminate].
    destruct (Json.scan_once f (Json.skip_ws r2)) as [w r3| |] eqn:E3;
      try discriminate.
    apply IHs in E3. pose proof (skip_ws_le r2) as L2.
    destruct (Json.skip_ws r3) as [|x r4] eqn:E4; [discriminate|].
    destruct (N.eqb x 125).
    + injection H as <- <-. scanner_lengths. lia.
    + destruct (N.eqb x 44); [|discriminate].
      apply IHo in H. pose proof (skip_ws_le r4) as L4.
      scanner_lengths. lia.
  - intros acc s v r H. cbn [Json.parse_array] in H.
    destruct (Json.scan_once f s) as [w r1| |] eqn:E1; try discriminate.
    apply IHs in E1.
    destruct (Json.skip_ws r1) as [|x r2] eqn:E2; [discriminate|].
    destruct (N.eqb x 93).
    + injection H as <- <-. scanner_lengths. lia.
    + destruct (N.eqb x 44); [|discriminate].
      apply IHa in H. pose proof (skip_ws_le r2) as L2.
      scanner_lengths. lia.
Qed.

(** With fuel above twice the length of the input, no scanner runs out. *)
Lemma scan_fuel fuel :
  (forall s, 2 * List.length s < fuel -> Json.scan_once fuel s <> Json.NoFuel)
  /\ (forall acc s, 2 * List.length s + 1 < fuel ->
                    Json.parse_object fuel acc s <> Json.NoFuel)
  /\ (forall acc s, 2 * List.length s + 1 < fuel ->
                    Json.parse_array fuel acc s <> Json.NoFuel).
Proof.
  induction fuel as [|f (IHs & IHo & IHa)]; [repeat split; intros; lia|].
  destruct (scan_shrinks f) as (Ss & So & Sa).
  split; [|split].
  - intros s Hlen. destruct s as [|c s]; [discriminate|].
    cbn [Json.scan_once]. cbn [List.length] in Hlen.
    destruct (N.eqb c 34).
    { destruct (Json.scanstring s []) as [[str rest]|]; discriminate. }
    destruct (N.eqb c 123).
    { destruct (Json.skip_ws s) as [|x r'] eqn:E; [discriminate|].
      destruct (N.eqb x 125); [discriminate|].
      apply IHo. scanner_lengths. lia. }
    destruct (N.eqb c 91).
    { destruct (Json.skip_ws s) as [|x r'] eqn:E; [discriminate|].
      destruct (N.eqb x 93); [discriminate|].
      apply IHa. scanner_lengths. lia. }
    apply scan_atom_fuel.
  - intros acc s Hlen. cbn [Json.parse_object].
    destruct s as [|q s]; [discriminate|]. cbn [List.length] in Hlen.
    destruct (N.eqb q 34); [|discriminate].
    destruct (Json.scanstring s []) as [[key r1]|] eqn:E1; [|discriminate].
    destruct (Json.skip_ws r1) as [|colon r2] eqn:E2; [discriminate|].
    destruct (N.eqb colon 58); [|discriminate].
    pose proof (skip_ws_le r2) as L2. scanner_lengths.
    destruct (Json.scan_once f (Json.skip_ws r2)) as [w r3| |] eqn:E3.
    + apply Ss in E3.
      destruct (Json.skip_ws r3) as [|x r4] eqn:E4; [discriminate|].
      destruct (N.eqb x 125); [discriminate|].
      destruct (N.eqb x 44); [|discriminate].
      apply IHo. pose proof (skip_ws_le r4) as L4. scanner_lengths. lia.
    + discriminate.
    + exfalso. revert E3. apply IHs. lia.
  - intros acc s Hlen. cbn [Json.parse_array].
    destruct (Json.scan_once f s) as [w r1| |] eqn:E1.
    + apply Ss in E1.
      destruct (Json.skip_ws r1) as [|x r2] eqn:E2; [discriminate|].
      destruct (N.eqb x 93); [discriminate|].
      destruct (N.eqb x 44); [|discriminate].
      apply IHa. pose proof (skip_ws_le r2) as L2. scanner_lengths. lia.
    + discriminate.
    + exfalso. revert E1. apply IHs. lia.
Qed.

(** [decode] gives a value or an error: the fuel it starts with is enough. *)
Lemma decode_fuel s : Json.decode s <> Json.NoFuel.
Proof.
  unfold Json.decode. destruct (Json.starts_with_bom s); [discriminate|].
  assert (H : Json.scan_once (S (2 * List.length s)) (Json.skip_ws s) <> Json.NoFuel).
  { apply (proj1 (scan_fuel _)). pose proof (skip_ws_le s). lia. }
  destruct (Json.scan_once _ _) as [v rest| |];
    [destruct (Json.skip_ws rest)| |contradiction]; discriminate.
Qed.

(** ** An object is decoded only from a text with braces *)

Lemma skip_ws_incl s : incl (Json.skip_ws s) s.
Proof.
  induction s as [|c s IH]; simpl; [apply incl_refl|].
  destruct (Json.is_ws c); [apply incl_tl; exact IH | apply incl_refl].
Qed.

Lemma scanstring_incl n :
  forall s acc str r,
    List.length s <= n ->
    Json.scanstring s acc = Some (str, r) -> incl r s.
Proof.
  induction n as [|n IH]; intros s acc str r Hn H;
    (destruct s as [|c s]; [discriminate H|]); cbn [List.length] in Hn; [lia|].
  cbn [Json.scanstring] in H. break_match_in H;
    try (injection H as <- <-; apply incl_tl, incl_refl);
    (apply IH in H; [|cbn [List.length] in *; lia]);
    intros a Ha; apply H in Ha; cbn [In] in *; tauto.
Qed.

Lemma span_digits_incl s : incl (snd (Json.span_digits s)) s.
Proof.
  induction s as [|c s IH]; simpl; [apply incl_refl|].
  destruct (Json.is_digit c); [|apply incl_refl].
  destruct (Json.span_digits s) as [ds rest]. apply incl_tl. exact IH.
Qed.

Lemma strip_prefix_incl p : forall s r,
  Json.strip_prefix p s = Some r -> incl r s.
Proof.
  induction p as [|a p IH]; intros [|b s] r H; simpl in *;
    try discriminate; try (injection H as <-; apply incl_refl).
  destruct (N.eqb a b); [|discriminate]. apply incl_tl. exact (IH _ _ H).
Qed.

Lemma match_number_shape s v r :
  Json.match_number s = Json.Done v r ->
  List.length r < List.length s /\ is_dict v = false.
Proof.
  intros H. split; [exact (match_number_lt _ _ _ H)|].
  revert H. unfold Json.match_number.
  destruct (match s with [] => _ | _ :: _ => _ end) as [neg s1].
  destruct (Json.int_part s1) as [[ip s2]|]; [|discriminate].
  destruct (match Json.frac_part s2 with Some _ => _ | None => _ end) as [fp s3].
  destruct (match Json.exp_part s3 with Some _ => _ | None => _ end) as [ep s4].
  destruct fp, ep; intros [= <- <-]; reflexivity.
Qed.

Lemma int_part_incl s ip r :
  Json.int_part s = Some (ip, r) -> incl r s.
Proof.
  unfold Json.int_part. destruct s as [|c s]; [discriminate|].
  destruct (N.eqb c 48).
  - intros [= <- <-]. apply incl_tl, incl_refl.
  - destruct (_ && _); [|discriminate].
    pose proof (span_digits_incl s) as Hi.
    destruct (Json.span_digits s) as [ds rest]. intros [= <- <-].
    apply incl_tl. exact Hi.
Qed.

Lemma frac_part_incl s ds r :
  Json.frac_part s = Some (ds, r) -> incl r s.
Proof.
  unfold Json.frac_part. destruct s as [|c s]; [discriminate|].
  destruct (N.eqb c 46); [|discriminate].
  pose proof (span_digits_incl s) as Hi.
  destruct (Json.span_digits s) as [[|d ds'] rest]; [discriminate|].
  intros [= <- <-]. apply incl_tl. exact Hi.
Qed.

Lemma exp_part_incl s e r :
  Json.exp_part s = Some (e, r) -> incl r s.
Proof.
  unfold Json.exp_part. destruct s as [|c s]; [discriminate|].
  destruct (_ || _); [|discriminate].
  assert (Hsign : forall neg r1,
             match s with
             | sg :: r' => if N.eqb sg 45 then (true, r')
                           else if N.eqb sg 43 then (false, r') else (false, s)
             | [] => (false, s)
             end = (neg, r1) -> incl r1 s).
  { intros neg r1. destruct s as [|sg r']; [intros [= <- <-]; apply incl_refl|].
    destruct (N.eqb sg 45); [intros [= <- <-]; apply incl_tl, incl_refl|].
    destruct (N.eqb sg 43); intros [= <- <-];
      [apply incl_tl, incl_refl | apply incl_refl]. }
  destruct (match s with [] => _ | _ :: _ => _ end) as [neg r1].
  specialize (Hsign neg r1 eq_refl).
  pose proof (span_digits_incl r1) as Hi.
  destruct (Json.span_digits r1) as [[|d ds'] rest]; [discriminate|].
  intros [= <- <-]. apply incl_tl. intros a Ha. apply Hsign, Hi, Ha.
Qed.

Lemma match_number_incl s v r :
  Json.match_number s = Json.Done v r -> incl r s.
Proof.
  unfold Json.match_number.
  assert (Hsign : forall neg s1,
             match s with
             | c :: r0 => if N.eqb c 45 then (true, r0) else (false, s)
             | [] => (false, s)
             end = (neg, s1) -> incl s1 s).
  { intros neg s1. destruct s as [|c r0]; [intros [= <- <-]; apply incl_refl|].
    destruct (N.eqb c 45); intros [= <- <-];
      [apply incl_tl, incl_refl | apply incl_refl]. }
  destruct (match s with [] => _ | _ :: _ => _ end) as [neg s1].
  specialize (Hsign neg s1 eq_refl).
  destruct (Json.int_part s1) as [[ip s2]|] eqn:Hi; [|discriminate].
  apply int_part_incl in Hi.
  assert (H2 : incl s2 s) by (intros a Ha; apply Hsign, Hi, Ha).
  destruct (Json.frac_part s2) as [[fds s3]|] eqn:Hf;
    [apply frac_part_incl in Hf|];
    (destruct (Json.exp_part _) as [[e s4]|] eqn:He;
     [apply exp_part_incl in He|]);
    intros [= <- <-]; intros a Ha; auto.
Qed.

Lemma scan_atom_not_dict s v r :
  Json.scan_atom s = Json.Done v r -> is_dict v = true -> False.
Proof.
  unfold Json.scan_atom.
  repeat match goal with
         | |- context [Json.strip_prefix ?p s] =>
             destruct (Json.strip_prefix p s); [intros [= <- <-]; discriminate|]
         end.
  intros H Hd. apply match_number_shape in H. destruct H as [_ H]. congruence.
Qed.

(** What the scanners return when they succeed: the rest of the input holds
    only characters of the input; the loops of an object end on a closing
    brace and return a dict; the loops of an array return a list. *)
Lemma scan_rest fuel :
  (forall s v r, Json.scan_once fuel s = Json.Done v r ->
                 incl r s
                 /\ (is_dict v = true -> exists s0, s = 123%N :: s0 /\ In 125%N s0))
  /\ (forall acc s v r, Json.parse_object fuel acc s = Json.Done v r ->
                        incl r s /\ In 125%N s)
  /\ (forall acc s v r, Json.parse_array fuel acc s = Json.Done v r ->
                        incl r s /\ is_dict v = false).
Proof.
  induction fuel as [|f (IHs & IHo & IHa)];
    [repeat split; intros; discriminate|].
  split; [|split].
  - intros s v r H. destruct s as [|c s]; [discriminate|].
    cbn [Json.scan_once] in H.
    destruct (N.eqb c 34).
    { destruct (Json.scanstring s []) as [[str rest]|] eqn:E; [|discriminate].
      injection H as <- <-. split; [|discriminate].
      apply incl_tl. exact (scanstring_incl _ _ _ _ _ (le_n _) E). }
    destruct (N.eqb_spec c 123) as [->|_].
    { pose proof (skip_ws_incl s) as Hw.
      destruct (Json.skip_ws s) as [|x r'] eqn:E; [discriminate|].
      destruct (N.eqb_spec x 125) as [->|_].
      - injection H as <- <-. split.
        + intros a Ha. right. apply Hw. right. exact Ha.
        + intros _. exists s. split; [reflexivity|]. apply Hw. left. reflexivity.
      - apply IHo in H. destruct H as [Hi Hb]. split.
        + intros a Ha. right. apply Hw, Hi, Ha.
        + intros _. exists s. split; [reflexivity|]. apply Hw, Hb. }
    destruct (N.eqb c 91).
    { pose proof (skip_ws_incl s) as Hw.
      destruct (Json.skip_ws s) as [|x r'] eqn:E; [discriminate|].
      destruct (N.eqb x 93).
      - injection H as <- <-. split; [|discriminate].
        intros a Ha. right. apply Hw. right. exact Ha.
      - apply IHa in H. destruct H as [Hi Hd]. split.
        + intros a Ha. right. apply Hw, Hi, Ha.
        + rewrite Hd. discriminate. }
    split.
    + revert H. unfold Json.scan_atom.
      repeat match goal with
             | |- context [Json.strip_prefix ?p (c :: s)] =>
                 let E := fresh "E" in
                 destruct (Json.strip_prefix p (c :: s)) eqn:E;
                 [intros [= <- <-]; exact (strip_prefix_incl _ _ _ E)|]
             end.
      apply match_number_incl.
    + intros Hd. exfalso. revert H Hd. apply scan_atom_not_dict.
  - intros acc s v r H. cbn [Json.parse_object] in H.
    destruct s as [|q s]; [discriminate|].
    destruct (N.eqb q 34); [|discriminate].
    destruct (Json.scanstring s []) as [[key r1]|] eqn:E1; [|discriminate].
    apply (scanstring_incl _ _ _ _ _ (le_n _)) in E1.
    pose proof (skip_ws_incl r1) as W1.
    destruct (Json.skip_ws r1) as [|colon r2] eqn:E2; [discriminate|].
    destruct (N.eqb colon 58); [|discriminate].
    pose proof (skip_ws_incl r2) as W2.
    destruct (Json.scan_once f (Json.skip_ws r2)) as [w r3| |] eqn:E3;
      try discriminate.
    apply IHs in E3. destruct E3 as [I3 _].
    pose proof (skip_ws_incl r3) as W3.
    assert (Hr3 : incl r3 (q :: s)).
    { intros a Ha. right. apply E1, W1. right. apply W2, I3, Ha. }
    destruct (Json.skip_ws r3) as [|x r4] eqn:E4; [discriminate|].
    destruct (N.eqb_spec x 125) as [->|_].
    + injection H as <- <-. split.
      * intros a Ha. apply Hr3, W3. right. exact Ha.
      * apply Hr3, W3. left. reflexivity.
    + destruct (N.eqb x 44); [|discriminate].
      apply IHo in H. destruct H as [I4 B4].
      pose proof (skip_ws_incl r4) as W4. split.
      * intros a Ha. apply Hr3, W3. right. apply W4, I4, Ha.
      * apply Hr3, W3. right. apply W4, B4.
  - intros acc s v r H. cbn [Json.parse_array] in H.
    destruct (Json.scan_once f s) as [w r1| |] eqn:E1; try discriminate.
    apply IHs in E1. destruct E1 as [I1 _].
    pose proof (skip_ws_incl r1) as W1.
    destruct (Json.skip_ws r1) as [|x r2] eqn:E2; [discriminate|].
    destruct (N.eqb x 93).
    + injection H as <- <-. split; [|reflexivity].
      intros a Ha. apply I1, W1. right. exact Ha.
    + destruct (N.eqb x 44); [|discriminate].
      apply IHa in H. destruct H as [I2 D2].
      pose proof (skip_ws_incl r2) as W2. split; [|exact D2].
      intros a Ha. apply I1, W1. right. apply W2, I2, Ha.
Qed.

Lemma In_find c s : In c s -> find c s <> None.
Proof.
  intros Hin H. apply In_nth_error in Hin. destruct Hin as [j Hj].
  exact (proj1 (find_none c s) H j Hj).
Qed.

Lemma In_rfind c s : In c s -> rfind c s <> None.
Proof.
  intros Hin H. apply In_nth_error in Hin. destruct Hin as [j Hj].
  exact (proj1 (rfind_none c s) H j Hj).
Qed.

(** A text that decodes to an object has an opening and a closing brace. *)
Lemma loads_dict_braces text d :
  Json.loads text = Some (PDict d) ->
  find 123 text <> None /\ rfind 125 text <> None.
Proof.
  unfold Json.loads, Json.decode. intros H.
  assert (Hs : exists rest,
             Json.scan_once (S (2 * List.length text)) (Json.skip_ws text)
             = Json.Done (PDict d) rest).
  { destruct (Json.starts_with_bom text); [discriminate|].
    destruct (Json.scan_once _ _) as [v rest| |]; try discriminate.
    exists rest. destruct (Json.skip_ws rest); [|discriminate]. congruence. }
  destruct Hs as [rest Hs].
  apply (proj1 (scan_rest _)) in Hs. destruct Hs as [_ Hb].
  destruct (Hb eq_refl) as (s0 & Hs0 & H125).
  pose proof (skip_ws_incl text) as Hw. rewrite Hs0 in Hw.
  split; [apply In_find | apply In_rfind]; apply Hw;
    [left; reflexivity | right; exact H125].
Qed.

(** ** C1: the steps of JSON recovery *)

(** C1.  [safe_parse_json] computes exactly the recovery the specification
    describes: the whole text parsed as JSON; if that fails, the text from
    the first opening brace to the last closing brace (both included) when
    the latter comes after the former; and no object ([None]) when that
    fails too or there are no such braces.  Being a function into values,
    it never raises. *)
Theorem safe_parse_json_steps :
  forall text v, recovery text v <-> safe_parse_json text = v.
Proof.
  intros text v. unfold safe_parse_json. split.
  - intros H. destruct H as [v Hw | s e v Hw Hs He Hlt Hb | s e Hw Hs He Hlt Hb | Hw Hno].
    + rewrite Hw. reflexivity.
    + rewrite Hw. apply find_first in Hs. apply rfind_last in He.
      rewrite Hs, He. destruct (Nat.ltb_spec s e); [|lia].
      rewrite slice_between, Hb. reflexivity.
    + rewrite Hw. apply find_first in Hs. apply rfind_last in He.
      rewrite Hs, He. destruct (Nat.ltb_spec s e); [|lia].
      rewrite slice_between, Hb. reflexivity.
    + rewrite Hw. destruct (find 123 text) as [s|] eqn:Hs; [|reflexivity].
      destruct (rfind 125 text) as [e|] eqn:He; [|reflexivity].
      apply find_first in Hs. apply rfind_last in He.
      specialize (Hno s e Hs He). destruct (Nat.ltb_spec s e); [lia|reflexivity].
  - destruct (Json.loads text) as [w|] eqn:Hw.
    + intros <-. apply recovery_whole. exact Hw.
    + destruct (find 123 text) as [s|] eqn:Hs.
      * destruct (rfind 125 text) as [e|] eqn:He.
        -- apply find_first in Hs. apply rfind_last in He.
           destruct (Nat.ltb_spec s e) as [Hlt|Hge].
           ++ rewrite slice_between.
              destruct (Json.loads (between text s e)) as [w|] eqn:Hb; intros <-.
              ** eapply recovery_braces; eassumption.
              ** eapply recovery_braces_fail; eassumption.
           ++ intros <-. apply recovery_no_braces; [exact Hw|].
              intros s' e' Hs' He'.
              rewrite <- (first_index_unique _ _ _ _ Hs Hs'), <- (last_index_unique _ _ _ _ He He').
              exact Hge.
        -- intros <-. apply recovery_no_braces; [exact Hw|].
           intros s' e' _ He'. apply rfind_last in He'. congruence.
      * intros <-. apply recovery_no_braces; [exact Hw|].
        intros s' e' Hs' _. apply find_first in Hs'. congruence.
Qed.

(** ** Floats *)

Lemma shiftr_pos M sh : (2 ^ sh <= M)%N -> (1 <= N.shiftr M sh)%N.
Proof.
  intros H. rewrite N.shiftr_div_pow2.
  apply N.div_le_lower_bound; [apply N.pow_nonzero; discriminate | lia].
Qed.

Lemma rne_shift_lower M sh : (N.shiftr M sh <= rne_shift M sh \/ sh = 0)%N.
Proof.
  unfold rne_shift. destruct (N.eqb_spec sh 0) as [->|Hsh]; [right; reflexivity|].
  left. destruct (_ || _); lia.
Qed.

Lemma pow2_size_le M : (M <> 0 -> 2 ^ (N.size M - 1) <= M)%N.
Proof.
  intros HM. rewrite N.size_log2 by exact HM.
  replace (N.succ (N.log2 M) - 1)%N with (N.log2 M) by lia.
  apply N.log2_spec. lia.
Qed.

(** Rounding a magnitude of at least one unit of the last place never
    underflows to zero. *)
Lemma round_units_not_zero neg M b :
  (8 <= M)%N -> round_units neg M <> FZero b.
Proof.
  intros HM. unfold round_units.
  set (sh := N.max 3 (N.size M - 53)).
  assert (Hq : (1 <= rne_shift M sh)%N).
  { assert (Hsh : (sh <> 0)%N) by (unfold sh; lia).
    destruct (rne_shift_lower M sh) as [Hl|]; [|contradiction].
    enough (1 <= N.shiftr M sh)%N by lia.
    apply shiftr_pos. unfold sh.
    destruct (N.max_spec 3 (N.size M - 53)) as [[_ ->]|[_ ->]].
    - transitivity (2 ^ (N.size M - 1))%N.
      + apply N.pow_le_mono_r; lia.
      + apply pow2_size_le. lia.
    - exact HM. }
  destruct (rne_shift M sh =? 2 ^ 53)%N.
  - simpl. destruct (2045 <? sh + 1 - 3)%N; discriminate.
  - destruct (rne_shift M sh) as [|p]; [lia|].
    destruct (2045 <? sh - 3)%N; discriminate.
Qed.

(** Only [-0.0 + -0.0] is [-0.0]. *)
Lemma add_neg_zero x y :
  PyFloat.add x y = FZero true -> x = FZero true /\ y = FZero true.
Proof.
  destruct x as [|a|a|a m k], y as [|b|b|b n j]; simpl; try discriminate.
  - destruct (Bool.eqb a b); discriminate.
  - destruct a, b; simpl; try discriminate. auto.
  - match goal with |- context [Z.eqb ?z 0] => set (z0 := z) end.
    destruct (Z.eqb_spec z0 0) as [_|Hz]; [discriminate|].
    intros H. exfalso. revert H. apply round_units_not_zero.
    assert (1 <= Z.abs_N z0)%N by lia.
    assert (8 <= 2 ^ (N.min k j + 3))%N.
    { rewrite N.pow_add_r. change (2 ^ 3)%N with 8%N.
      assert (1 <= 2 ^ N.min k j)%N by (apply N.neq_0_le_1, N.pow_nonzero; discriminate).
      lia. }
    nia.
Qed.

(** A sum that starts from [0.0] is never [-0.0]. *)
Lemma float_sum_not_neg_zero xs : float_sum xs <> FZero true.
Proof.
  unfold float_sum.
  enough (H : forall a, a <> FZero true -> fold_left PyFloat.add xs a <> FZero true)
    by (apply H; discriminate).
  induction xs as [|x xs IH]; intros a Ha; simpl; [exact Ha|].
  apply IH. intros H. apply add_neg_zero in H. tauto.
Qed.

Lemma or_zero_id f : f <> FZero true -> or_zero f = f.
Proof. destruct f as [| |[|]|]; try reflexivity. congruence. Qed.

Lemma fold_sum_float xs a :
  fold_left (fun acc x =>
               PFloat (PyFloat.add (match acc with PFloat b => b | _ => pos_zero end) x))
            xs (PFloat a)
  = PFloat (fold_left PyFloat.add xs a).
Proof.
  revert a. induction xs as [|y ys IH]; intros a; [reflexivity|].
  cbn [fold_left]. apply IH.
Qed.

Lemma py_sum_cases xs :
  py_sum xs = match xs with [] => PInt 0 | _ => PFloat (float_sum xs) end.
Proof.
  destruct xs as [|x xs]; [reflexivity|]. unfold py_sum, float_sum.
  cbn [fold_left]. apply fold_sum_float.
Qed.

(** ** The handlers *)

Section HandlerProperties.

Context {builtins : Builtins}.

(** A valid request served by an available model that answers with [text]:
    one call is made, and the outcome is the normalization of [text] under
    the handler's error mapping. *)
Lemma serve_answered m req text :
  valid req -> answers m (sent req) text ->
  serve (Some m) req
  = (handle_errors (normalize (fallback_dish_of req) text), [sent req]).
Proof.
  intros Hv [r [Hg Ht]]. destruct req as [data|image]; simpl in *.
  - unfold estimate_text. destruct (strip (data_dish data)) as [|c d] eqn:Hd;
      [congruence|].
    rewrite Hg. simpl. rewrite Ht. reflexivity.
  - unfold estimate_image. destruct (content image) as [|b bs] eqn:Hc;
      [congruence|].
    rewrite Hg. simpl. rewrite Ht. reflexivity.
Qed.

(** The fallback object coerces to the fallback result. *)
Lemma coerce_fallback fb :
  coerce_shape fb (fallback fb)
  = Ret {| dish := fb; estimated_carbon_kg := pos_zero; ingredients := [] |}.
Proof. reflexivity. Qed.

Lemma normalize_falsy fb text :
  py_truthy (safe_parse_json text) = false ->
  normalize fb text
  = Ret {| dish := fb; estimated_carbon_kg := pos_zero; ingredients := [] |}.
Proof.
  intros H. unfold normalize, py_or. rewrite H. apply coerce_fallback.
Qed.

Lemma normalize_truthy fb text :
  py_truthy (safe_parse_json text) = true ->
  normalize fb text = coerce_shape fb (safe_parse_json text).
Proof. intros H. unfold normalize, py_or. rewrite H. reflexivity. Qed.

Lemma coerce_non_dict fb v :
  is_dict v = false ->
  coerce_shape fb v
  = Raise (Exception AttributeError
             (lit "'" +++ type_name v +++ lit "' object has no attribute 'get'")).
Proof. intros H. destruct v; try discriminate; reflexivity. Qed.

(** C8.  A text request whose dish is empty after trimming, and an image
    request with an empty payload, are answered with a 400 error whatever
    the model handle is (available or not), and no call to the model is
    made. *)
Theorem validation_errors_precede_calls :
  forall (model : option GenerativeModel) (data : EstimateIn) (image : UploadFile),
    (strip (data_dish data) = [] ->
     serve model (TextRequest data)
     = (Raise (HTTPException 400 (lit "'dish' must be a non-empty string")), []))
    /\ (content image = [] ->
        serve model (ImageRequest image)
        = (Raise (HTTPException 400 (lit "Empty image upload")), [])).
Proof.
  intros model data image. split; intros H; simpl.
  - unfold estimate_text. rewrite H. reflexivity.
  - unfold estimate_image. rewrite H. reflexivity.
Qed.

(** C9.  [configure_gemini] yields no handle when the API key is absent or
    empty or the client library is unavailable; with no handle, every valid
    request on either endpoint is answered with the 500 error and no call
    is made; and that error differs from every 502 error. *)
Theorem unavailable_model_fails_fast :
  (forall genai, configure_gemini None genai = Ret None)
  /\ (forall genai, configure_gemini (Some []) genai = Ret None)
  /\ (forall api_key, configure_gemini api_key None = Ret None)
  /\ (forall req, valid req ->
        serve None req = (Raise (HTTPException 500 not_configured), []))
  /\ (forall detail, HTTPException 500 not_configured <> HTTPException 502 detail).
Proof.
  repeat split.
  - intros [[|c k]|]; reflexivity.
  - intros [data|image] Hv; simpl in *.
    + unfold estimate_text. destruct (strip (data_dish data)); [congruence|reflexivity].
    + unfold estimate_image. destruct (content image); [congruence|reflexivity].
  - intros detail H. discriminate H.
Qed.

(** C10.  When the model's text recovers to a truthy value that is not an
    object, the fallback is not substituted and a valid text request ends
    in the 502 error (no result); when it recovers to a falsy value (no
    object, an empty array, an empty object, ...) the fallback result is
    returned. *)
Theorem non_object_json_is_upstream_error :
  forall m data text,
    valid (TextRequest data) ->
    answers m (sent (TextRequest data)) text ->
    (py_truthy (safe_parse_json text) = true ->
     is_dict (safe_parse_json text) = false ->
     fst (serve (Some m) (TextRequest data))
     = Raise (HTTPException 502
                (lit "Model error: '" +++ type_name (safe_parse_json text)
                 +++ lit "' object has no attribute 'get'")))
    /\ (py_truthy (safe_parse_json text) = false ->
        fst (serve (Some m) (TextRequest data))
        = Ret {| dish := strip (data_dish data);
                 estimated_carbon_kg := pos_zero;
                 ingredients := [] |}).
Proof.
  intros m data text Hv Ha. rewrite (serve_answered _ _ _ Hv Ha). simpl fst.
  split.
  - intros Ht Hd. rewrite (normalize_truthy _ _ Ht), (coerce_non_dict _ _ Hd).
    reflexivity.
  - intros Hf. rewrite (normalize_falsy _ _ Hf). reflexivity.
Qed.

(** *** Coercion of a recovered object *)

Lemma py_float_raises v e :
  py_float v = Raise e -> exists cls msg, e = Exception cls msg.
Proof.
  destruct v; simpl; try discriminate;
    try (intros [= <-]; eexists; eexists; reflexivity).
  - destruct (PyFloat.of_int z); [discriminate|].
    intros [= <-]. eexists; eexists; reflexivity.
  - destruct (float_of_str s); [discriminate|].
    intros [= <-]. eexists; eexists; reflexivity.
Qed.

(** [dict_get] with its default, by cases on the lookup. *)
Lemma dict_get_lookup d key default :
  dict_get d key default
  = match dict_lookup d key with Some v => v | None => default end.
Proof. reflexivity. Qed.

(** Entries that are not mappings do not take part in the comprehension. *)
Lemma build_ingredients_filter items :
  build_ingredients items = build_ingredients (filter is_dict items).
Proof.
  induction items as [|it items IH]; [reflexivity|].
  destruct it; simpl; try exact IH. rewrite IH. reflexivity.
Qed.

Lemma build_ingredients_spec items ings :
  build_ingredients items = Ret ings ->
  Forall2 ingredient_of (filter is_dict items) ings.
Proof.
  revert ings. induction items as [|it items IH]; intros ings; simpl.
  - intros [= <-]. constructor.
  - destruct it; simpl; try (apply IH).
    destruct (py_float (dict_get d (lit "carbon_kg") (PFloat pos_zero)))
      as [c|e] eqn:Hc; simpl; [|discriminate].
    destruct (build_ingredients items) as [tl|e] eqn:Htl; simpl; [|discriminate].
    intros [= <-]. constructor; [|apply IH; reflexivity].
    simpl. split.
    + rewrite dict_get_lookup. destruct (dict_lookup d (lit "name")); reflexivity.
    + rewrite dict_get_lookup in Hc.
      destruct (dict_lookup d (lit "carbon_kg")); [exact Hc|].
      simpl in Hc. congruence.
Qed.

Lemma build_ingredients_total items :
  Forall carbon_coerces items ->
  exists ings, build_ingredients items = Ret ings.
Proof.
  induction 1 as [|it items Hit _ IH]; [eexists; reflexivity|].
  destruct IH as [tl Htl].
  destruct it; simpl; try (exists tl; exact Htl).
  simpl in Hit. rewrite (dict_get_lookup d (lit "carbon_kg")).
  destruct (dict_lookup d (lit "carbon_kg")) as [v|].
  - destruct Hit as [c Hc]. rewrite Hc, Htl. simpl. eexists; reflexivity.
  - simpl. rewrite Htl. simpl. eexists; reflexivity.
Qed.

(** The comprehension fails exactly with the error of the first entry whose
    [carbon_kg] does not coerce. *)
Lemma build_ingredients_raises items it v e :
  In (PDict it) items ->
  dict_lookup it (lit "carbon_kg") = Some v ->
  py_float v = Raise e ->
  exists it' v' e',
    In (PDict it') items
    /\ dict_lookup it' (lit "carbon_kg") = Some v'
    /\ py_float v' = Raise e'
    /\ build_ingredients items = Raise e'.
Proof.
  induction items as [|x items IH]; intros Hin Hl Hf; [destruct Hin|].
  assert (Htail : In (PDict it) items ->
                  exists it' v' e',
                    In (PDict it') (x :: items)
                    /\ dict_lookup it' (lit "carbon_kg") = Some v'
                    /\ py_float v' = Raise e'
                    /\ build_ingredients items = Raise e').
  { intros Hin'. destruct (IH Hin' Hl Hf) as (it' & v' & e' & H1 & H2 & H3 & H4).
    exists it', v', e'. repeat split; try assumption. right. exact H1. }
  destruct x as [| | | | |l|d];
    try (destruct Hin as [Hx|Hin]; [discriminate|]; exact (Htail Hin)).
  simpl. rewrite (dict_get_lookup d (lit "carbon_kg")).
  destruct (dict_lookup d (lit "carbon_kg")) as [w|] eqn:Hw.
  - destruct (py_float w) as [c|e0] eqn:Hc; simpl.
    + destruct Hin as [Hx|Hin]; [congruence|].
      destruct (Htail Hin) as (it' & v' & e' & H1 & H2 & H3 & H4).
      exists it', v', e'. rewrite H4. repeat split; assumption.
    + exists d, w, e0. repeat split; try assumption. left. reflexivity.
  - simpl. destruct Hin as [Hx|Hin]; [congruence|].
    destruct (Htail Hin) as (it' & v' & e' & H1 & H2 & H3 & H4).
    exists it', v', e'. rewrite H4. repeat split; assumption.
Qed.

(** The last steps of the coercion, for a float total and for a sum. *)
Lemma finish_float f :
  (rounded <- py_round2 (py_or (PFloat f) (PFloat pos_zero)) ;;
   validate_float rounded)
  = Ret (PyFloat.round2 (or_zero f)).
Proof. unfold py_or, or_zero. simpl. destruct (PyFloat.truthy f); reflexivity. Qed.

Lemma finish_sum xs :
  (rounded <- py_round2 (py_or (py_sum xs) (PFloat pos_zero)) ;;
   validate_float rounded)
  = Ret (PyFloat.round2 (or_zero (float_sum xs))).
Proof.
  rewrite py_sum_cases. destruct xs as [|x xs]; [reflexivity|]. apply finish_float.
Qed.

(** The coercion of an object whose ingredients were built. *)
Lemma coerce_dict fb d items ings :
  items_of d = Ret items ->
  build_ingredients items = Ret ings ->
  coerce_shape fb (PDict d)
  = match dict_lookup d (lit "estimated_carbon_kg") with
    | Some PNone | None =>
        Ret {| dish := py_str (dict_get d (lit "dish") (PStr fb));
               estimated_carbon_kg :=
                 PyFloat.round2 (or_zero (float_sum (map carbon_kg ings)));
               ingredients := ings |}
    | Some v =>
        match py_float v with
        | Ret f =>
            Ret {| dish := py_str (dict_get d (lit "dish") (PStr fb));
                   estimated_carbon_kg := PyFloat.round2 (or_zero f);
                   ingredients := ings |}
        | Raise e => Raise e
        end
    end.
Proof.
  unfold items_of. intros Hi Hb. unfold coerce_shape, py_get.
  cbn [bind]. rewrite Hi. cbn [bind]. rewrite Hb. cbn [bind].
  rewrite (dict_get_lookup d (lit "estimated_carbon_kg")).
  assert (Hsum :
    (total_val <- Ret (py_sum (map carbon_kg ings)) ;;
     d0 <- Ret (dict_get d (lit "dish") (PStr fb)) ;;
     rounded <- py_round2 (py_or total_val (PFloat pos_zero)) ;;
     est <- validate_float rounded ;;
     Ret {| dish := py_str d0; estimated_carbon_kg := est; ingredients := ings |})
    = Ret {| dish := py_str (dict_get d (lit "dish") (PStr fb));
             estimated_carbon_kg :=
               PyFloat.round2 (or_zero (float_sum (map carbon_kg ings)));
             ingredients := ings |}).
  { cbn [bind].
    pose proof (finish_sum (map carbon_kg ings)) as Hf. unfold bind in Hf |- *.
    destruct (py_round2 (py_or (py_sum (map carbon_kg ings)) (PFloat pos_zero)));
      [|discriminate].
    rewrite Hf. reflexivity. }
  assert (Hfl : forall v, v <> PNone ->
    (total_val <- (f <- py_float v ;; Ret (PFloat f)) ;;
     d0 <- Ret (dict_get d (lit "dish") (PStr fb)) ;;
     rounded <- py_round2 (py_or total_val (PFloat pos_zero)) ;;
     est <- validate_float rounded ;;
     Ret {| dish := py_str d0; estimated_carbon_kg := est; ingredients := ings |})
    = match py_float v with
      | Ret f =>
          Ret {| dish := py_str (dict_get d (lit "dish") (PStr fb));
                 estimated_carbon_kg := PyFloat.round2 (or_zero f);
                 ingredients := ings |}
      | Raise e => Raise e
      end).
  { intros v _. destruct (py_float v) as [f|e]; [|reflexivity]. cbn [bind].
    pose proof (finish_float f) as Hf. unfold bind in Hf |- *.
    destruct (py_round2 (py_or (PFloat f) (PFloat pos_zero))); [|discriminate].
    rewrite Hf. reflexivity. }
  destruct (dict_lookup d (lit "estimated_carbon_kg")) as [v|]; [|exact Hsum].
  destruct v; try exact Hsum; apply Hfl; discriminate.
Qed.

Lemma coerce_dict_ingredients_raise fb d items e :
  items_of d = Ret items ->
  build_ingredients items = Raise e ->
  coerce_shape fb (PDict d) = Raise e.
Proof.
  unfold items_of. intros Hi Hb. unfold coerce_shape, py_get.
  cbn [bind]. rewrite Hi. cbn [bind]. rewrite Hb. reflexivity.
Qed.

Lemma coerce_dict_items_raise fb d e :
  items_of d = Raise e ->
  coerce_shape fb (PDict d) = Raise e.
Proof.
  unfold items_of. intros Hi. unfold coerce_shape, py_get.
  cbn [bind]. rewrite Hi. reflexivity.
Qed.

(** A recovered object that is truthy is what the handlers coerce. *)
Lemma serve_object m req text d :
  valid req -> answers m (sent req) text ->
  safe_parse_json text = PDict d -> d <> [] ->
  fst (serve (Some m) req)
  = handle_errors (coerce_shape (fallback_dish_of req) (PDict d)).
Proof.
  intros Hv Ha Hp Hd. rewrite (serve_answered _ _ _ Hv Ha). simpl fst.
  rewrite normalize_truthy, Hp; [reflexivity|].
  rewrite Hp. destruct d; [congruence|reflexivity].
Qed.

Lemma handle_errors_ret (A : Type) (x : result A) a :
  handle_errors x = Ret a <-> x = Ret a.
Proof.
  destruct x as [b|[st dt|cls msg]]; simpl; split; intros H;
    try discriminate; exact H.
Qed.

(** What a result of the coercion of an object is made of. *)
Lemma coerce_dict_inv fb d r :
  coerce_shape fb (PDict d) = Ret r ->
  exists items,
    items_of d = Ret items
    /\ build_ingredients items = Ret (ingredients r)
    /\ dish r = py_str (dict_get d (lit "dish") (PStr fb))
    /\ match dict_lookup d (lit "estimated_carbon_kg") with
       | Some PNone | None =>
           estimated_carbon_kg r
           = PyFloat.round2 (or_zero (float_sum (map carbon_kg (ingredients r))))
       | Some v =>
           exists f, py_float v = Ret f
                     /\ estimated_carbon_kg r = PyFloat.round2 (or_zero f)
       end.
Proof.
  intros H. destruct (items_of d) as [items|e] eqn:Hi.
  2: { rewrite (coerce_dict_items_raise _ _ _ Hi) in H. discriminate. }
  destruct (build_ingredients items) as [ings|e] eqn:Hb.
  2: { rewrite (coerce_dict_ingredients_raise _ _ _ _ Hi Hb) in H. discriminate. }
  rewrite (coerce_dict _ _ _ _ Hi Hb) in H. exists items.
  destruct (dict_lookup d (lit "estimated_carbon_kg")) as [v|].
  - destruct v.
    1: { injection H as <-. simpl. repeat split; assumption. }
    all: destruct (py_float _) as [g|e] eqn:Hf; [|discriminate];
         injection H as <-; simpl; repeat split; try assumption;
         exists g; split; [first [exact Hf | reflexivity] | reflexivity].
  - injection H as <-. simpl. repeat split; assumption.
Qed.

(** The coercion of an object succeeds when its items can be iterated and
    every number present coerces. *)
Lemma coerce_dict_total fb d items :
  items_of d = Ret items ->
  Forall carbon_coerces items -> total_coerces d ->
  exists r, coerce_shape fb (PDict d) = Ret r.
Proof.
  intros Hi Hc Ht. destruct (build_ingredients_total _ Hc) as [ings Hb].
  rewrite (coerce_dict _ _ _ _ Hi Hb). unfold total_coerces in Ht.
  destruct (dict_lookup d (lit "estimated_carbon_kg")) as [v|]; [|eexists; reflexivity].
  destruct v; [eexists; reflexivity | ..];
    destruct Ht as [c Hc0]; rewrite Hc0; eexists; reflexivity.
Qed.

Lemma items_of_list d items :
  dict_lookup d (lit "ingredients") = Some (PList items) ->
  items_of d = Ret items.
Proof.
  intros H. unfold items_of. rewrite dict_get_lookup, H.
  destruct items; reflexivity.
Qed.

Lemma lookup_nonempty d key v : dict_lookup d key = Some v -> d <> [].
Proof. destruct d; [discriminate|discriminate]. Qed.

(** C7.  When an entry of the ingredients array has a [carbon_kg] that is
    present and does not coerce to a float, a valid request on either
    endpoint ends with the 502 error, whose detail is the text of the
    coercion error of such an entry after the prefix, and no result is
    returned. *)
Theorem invalid_carbon_is_hard_failure :
  forall m req text d items it v e,
    valid req -> answers m (sent req) text ->
    safe_parse_json text = PDict d ->
    dict_lookup d (lit "ingredients") = Some (PList items) ->
    In (PDict it) items ->
    dict_lookup it (lit "carbon_kg") = Some v ->
    py_float v = Raise e ->
    exists it' v' cls msg,
      In (PDict it') items
      /\ dict_lookup it' (lit "carbon_kg") = Some v'
      /\ py_float v' = Raise (Exception cls msg)
      /\ fst (serve (Some m) req)
         = Raise (HTTPException 502 (lit "Model error: " +++ msg)).
Proof.
  intros m req text d items it v e Hv Ha Hp Hl Hin Hc Hf.
  destruct (build_ingredients_raises _ _ _ _ Hin Hc Hf) as (it' & v' & e' & H1 & H2 & H3 & H4).
  destruct (py_float_raises _ _ H3) as (cls & msg & ->).
  exists it', v', cls, msg. repeat split; try assumption.
  rewrite (serve_object _ _ _ _ Hv Ha Hp (lookup_nonempty _ _ _ Hl)).
  rewrite (coerce_dict_ingredients_raise _ _ _ _ (items_of_list _ _ Hl) H4).
  reflexivity.
Qed.

(** C3.  For a recovered object with an ingredients array, the ingredients
    of a result are, in order, those of the entries that are mappings:
    the name is the [name] field as a string, or ["Unknown"] when the key
    is absent, and [carbon_kg] is the coerced field, or [0.0] when the key
    is absent.  Entries that are not mappings cause no error: a result is
    returned whenever the numbers that are present coerce. *)
Theorem ingredient_entries_are_filtered_and_defaulted :
  forall m req text d items,
    valid req -> answers m (sent req) text ->
    safe_parse_json text = PDict d ->
    dict_lookup d (lit "ingredients") = Some (PList items) ->
    (forall r, fst (serve (Some m) req) = Ret r ->
               Forall2 ingredient_of (filter is_dict items) (ingredients r))
    /\ (Forall carbon_coerces (filter is_dict items) -> total_coerces d ->
        exists r, fst (serve (Some m) req) = Ret r).
Proof.
  intros m req text d items Hv Ha Hp Hl.
  rewrite (serve_object _ _ _ _ Hv Ha Hp (lookup_nonempty _ _ _ Hl)).
  pose proof (items_of_list _ _ Hl) as Hi. split.
  - intros r Hr. apply (proj1 (handle_errors_ret _ _ _)) in Hr.
    destruct (coerce_dict_inv _ _ _ Hr) as (items' & Hi' & Hb & _).
    rewrite Hi in Hi'. injection Hi' as <-.
    apply build_ingredients_spec. exact Hb.
  - intros Hc Ht.
    assert (Hall : Forall carbon_coerces items).
    { apply Forall_forall. intros x Hx. destruct x; try exact I.
      rewrite Forall_forall in Hc. apply Hc. apply filter_In. split; [exact Hx|reflexivity]. }
    destruct (coerce_dict_total (fallback_dish_of req) _ _ Hi Hall Ht) as [r Hr].
    exists r. rewrite Hr. reflexivity.
Qed.

(** C4.  For a recovered object without a top-level [estimated_carbon_kg],
    or with [None] there, the total of a result is the sum of the
    [carbon_kg] of its ingredients, rounded to two decimals. *)
Theorem omitted_total_is_rounded_sum :
  forall m req text d r,
    valid req -> answers m (sent req) text ->
    safe_parse_json text = PDict d ->
    dict_lookup d (lit "estimated_carbon_kg") = None
    \/ dict_lookup d (lit "estimated_carbon_kg") = Some PNone ->
    fst (serve (Some m) req) = Ret r ->
    estimated_carbon_kg r
    = PyFloat.round2 (float_sum (map carbon_kg (ingredients r))).
Proof.
  intros m req text d r Hv Ha Hp Ht Hr.
  destruct d as [|kv d'].
  - rewrite (serve_answered _ _ _ Hv Ha) in Hr. simpl fst in Hr.
    rewrite normalize_falsy in Hr by (rewrite Hp; reflexivity).
    injection Hr as <-. reflexivity.
  - rewrite (serve_object _ _ _ _ Hv Ha Hp) in Hr by discriminate.
    apply (proj1 (handle_errors_ret _ _ _)) in Hr.
    destruct (coerce_dict_inv _ _ _ Hr) as (items & _ & _ & _ & He).
    rewrite <- (or_zero_id _ (float_sum_not_neg_zero (map carbon_kg (ingredients r)))).
    destruct Ht as [Ht|Ht]; rewrite Ht in He; exact He.
Qed.

Lemma build_no_mapping items :
  (forall x, In x items -> is_dict x = false) ->
  build_ingredients items = Ret [] /\ Forall carbon_coerces items.
Proof.
  intros H. split.
  - rewrite build_ingredients_filter.
    replace (filter is_dict items) with (@nil pyval); [reflexivity|].
    symmetry. induction items as [|x items IH]; [reflexivity|]. simpl.
    rewrite (H x (or_introl eq_refl)). apply IH. intros y Hy. apply H. right. exact Hy.
  - apply Forall_forall. intros x Hx. specialize (H x Hx).
    destruct x; try exact I. discriminate.
Qed.

(** The items iterated for an [ingredients] value that contributes nothing. *)
Lemma items_of_nothing d :
  ingredients_source (dict_lookup d (lit "ingredients")) = UseNothing ->
  exists items, items_of d = Ret items
                /\ forall x, In x items -> is_dict x = false.
Proof.
  unfold items_of, ingredients_source. rewrite dict_get_lookup.
  destruct (dict_lookup d (lit "ingredients")) as [v|].
  2: { intros _. exists []. split; [reflexivity|]. intros x []. }
  unfold py_or. destruct (py_truthy v) eqn:Ht.
  2: { intros _. exists []. split; [reflexivity|]. intros x []. }
  destruct v; try discriminate; intros _; simpl.
  - eexists. split; [reflexivity|]. intros x Hx.
    apply in_map_iff in Hx. destruct Hx as [c [<- _]]. reflexivity.
  - eexists. split; [reflexivity|]. intros x Hx.
    apply in_map_iff in Hx. destruct Hx as [kv [<- _]]. reflexivity.
Qed.

(** C6, as amended.  For a recovered truthy object, the value at the
    [ingredients] key is used as follows.  A truthy list provides the
    entries.  An absent key, a falsy value, a string and an object provide
    no ingredient and cause no error.  A truthy value of another type (a
    non-zero number, [true]) is not iterable: the request ends with the 502
    error. *)
Theorem ingredients_value_rule :
  forall m req text d,
    valid req -> answers m (sent req) text ->
    safe_parse_json text = PDict d -> d <> [] ->
    match ingredients_source (dict_lookup d (lit "ingredients")) with
    | UseList l =>
        forall r, fst (serve (Some m) req) = Ret r ->
                  Forall2 ingredient_of (filter is_dict l) (ingredients r)
    | UseNothing =>
        (forall r, fst (serve (Some m) req) = Ret r -> ingredients r = [])
        /\ (total_coerces d -> exists r, fst (serve (Some m) req) = Ret r)
    | NotIterable type =>
        fst (serve (Some m) req)
        = Raise (HTTPException 502
                   (lit "Model error: '" +++ type +++ lit "' object is not iterable"))
    end.
Proof.
  intros m req text d Hv Ha Hp Hd.
  rewrite (serve_object _ _ _ _ Hv Ha Hp Hd).
  destruct (ingredients_source (dict_lookup d (lit "ingredients"))) as [l| |ty] eqn:Hs.
  - assert (Hl : dict_lookup d (lit "ingredients") = Some (PList l)).
    { unfold ingredients_source in Hs.
      destruct (dict_lookup d (lit "ingredients")) as [v|]; [|discriminate].
      destruct (py_truthy v); [|discriminate]. destruct v; try discriminate.
      congruence. }
    intros r Hr. apply (proj1 (handle_errors_ret _ _ _)) in Hr.
    destruct (coerce_dict_inv _ _ _ Hr) as (items' & Hi' & Hb & _).
    rewrite (items_of_list _ _ Hl) in Hi'. injection Hi' as <-.
    apply build_ingredients_spec. exact Hb.
  - destruct (items_of_nothing _ Hs) as (items & Hi & Hno).
    destruct (build_no_mapping _ Hno) as [Hb Hc]. split.
    + intros r Hr. apply (proj1 (handle_errors_ret _ _ _)) in Hr.
      destruct (coerce_dict_inv _ _ _ Hr) as (items' & Hi' & Hb' & _).
      rewrite Hi in Hi'. injection Hi' as <-. congruence.
    + intros Ht.
      destruct (coerce_dict_total (fallback_dish_of req) _ _ Hi Hc Ht) as [r Hr].
      exists r. rewrite Hr. reflexivity.
  - assert (Hi : items_of d
                 = Raise (Exception TypeError
                            (lit "'" +++ ty +++ lit "' object is not iterable"))).
    { unfold items_of, ingredients_source in *. rewrite dict_get_lookup.
      destruct (dict_lookup d (lit "ingredients")) as [v|]; [|discriminate].
      unfold py_or. destruct (py_truthy v); [|discriminate].
      destruct v; try discriminate; injection Hs as <-; reflexivity. }
    rewrite (coerce_dict_items_raise _ _ _ Hi). reflexivity.
Qed.

(** C5, as amended.  For a recovered truthy object whose ingredients were
    built, the total of the result is the coerced top-level total when one
    is present and not [None], and the sum of the ingredients otherwise;
    it is replaced by [0.0] exactly when it is a zero, and then rounded to
    two decimals.  NaN is not falsy: it stays NaN.  A total that does not
    coerce does not fall through: the request ends with the 502 error. *)
Theorem final_total_rule :
  forall m req text d items ings,
    valid req -> answers m (sent req) text ->
    safe_parse_json text = PDict d -> d <> [] ->
    items_of d = Ret items -> build_ingredients items = Ret ings ->
    match dict_lookup d (lit "estimated_carbon_kg") with
    | Some PNone | None =>
        exists r, fst (serve (Some m) req) = Ret r
                  /\ estimated_carbon_kg r
                     = PyFloat.round2 (or_zero (float_sum (map carbon_kg ings)))
    | Some v =>
        match py_float v with
        | Ret f =>
            exists r, fst (serve (Some m) req) = Ret r
                      /\ estimated_carbon_kg r = PyFloat.round2 (or_zero f)
        | Raise e =>
            exists msg, fst (serve (Some m) req)
                        = Raise (HTTPException 502 (lit "Model error: " +++ msg))
        end
    end
    /\ (forall f, or_zero f = (if PyFloat.truthy f then f else pos_zero))
    /\ (forall f, PyFloat.truthy f = false <-> exists neg, f = FZero neg)
    /\ PyFloat.round2 (or_zero FNaN) = FNaN.
Proof.
  intros m req text d items ings Hv Ha Hp Hd Hi Hb.
  rewrite (serve_object _ _ _ _ Hv Ha Hp Hd), (coerce_dict _ _ _ _ Hi Hb).
  split; [|split; [|split]].
  - destruct (dict_lookup d (lit "estimated_carbon_kg")) as [v|];
      [|eexists; split; reflexivity].
    destruct v; try (eexists; split; reflexivity);
      match goal with
      | |- context [py_float ?v] =>
          destruct (py_float v) as [f|e] eqn:Hf;
          [eexists; split; reflexivity
          |destruct (py_float_raises _ _ Hf) as (cls & msg & ->);
           exists msg; reflexivity]
      end.
  - reflexivity.
  - intros f. split.
    + destruct f; try discriminate. intros _. eexists; reflexivity.
    + intros [neg ->]. reflexivity.
  - reflexivity.
Qed.

(** What is recovered from a text lacking a brace is not an object. *)
Lemma brace_free_not_object text :
  find 123 text = None \/ rfind 125 text = None ->
  is_dict (safe_parse_json text) = false.
Proof.
  intros Hb. unfold safe_parse_json.
  destruct (Json.loads text) as [v|] eqn:Hl.
  - destruct v; try reflexivity.
    destruct (loads_dict_braces _ _ Hl) as [Hf Hr]. destruct Hb; contradiction.
  - destruct Hb as [-> | ->]; [reflexivity|].
    destruct (find 123 text); reflexivity.
Qed.

(** C2.  For a valid text request whose model text has no opening or no
    closing brace (in particular neither), or from which nothing is
    recovered, the successful response is exactly the fallback result: the
    trimmed dish, no ingredients, and a total of [0.0].  There is such a
    response, after one call, whenever the text is not valid JSON and lacks
    a brace, or is recovered to nothing or to a falsy value; this is the
    case of garbage text without braces. *)
Theorem unrecoverable_text_gives_fallback :
  forall m data text,
    valid (TextRequest data) ->
    answers m (sent (TextRequest data)) text ->
    (find 123 text = None \/ rfind 125 text = None
     \/ safe_parse_json text = PNone ->
     forall r, fst (serve (Some m) (TextRequest data)) = Ret r ->
               r = {| dish := strip (data_dish data);
                      estimated_carbon_kg := pos_zero;
                      ingredients := [] |})
    /\ ((Json.loads text = None /\ (find 123 text = None \/ rfind 125 text = None))
        \/ py_truthy (safe_parse_json text) = false ->
        serve (Some m) (TextRequest data)
        = (Ret {| dish := strip (data_dish data);
                  estimated_carbon_kg := pos_zero;
                  ingredients := [] |},
           [sent (TextRequest data)])).
Proof.
  intros m data text Hv Ha. rewrite (serve_answered _ _ _ Hv Ha). split.
  - intros Hb r. simpl fst.
    assert (Hd : is_dict (safe_parse_json text) = false).
    { destruct Hb as [Hb|[Hb|Hb]].
      - apply brace_free_not_object. left. exact Hb.
      - apply brace_free_not_object. right. exact Hb.
      - rewrite Hb. reflexivity. }
    destruct (py_truthy (safe_parse_json text)) eqn:Ht.
    + rewrite (normalize_truthy _ _ Ht), (coerce_non_dict _ _ Hd). discriminate.
    + rewrite (normalize_falsy _ _ Ht). intros [= <-]. reflexivity.
  - intros H. rewrite normalize_falsy; [reflexivity|].
    destruct H as [[Hl Hb]|H]; [|exact H].
    unfold safe_parse_json. rewrite Hl.
    destruct Hb as [-> | ->]; [reflexivity|].
    destruct (find 123 text); reflexivity.
Qed.

End HandlerProperties.

(** ** Evaluations on concrete requests *)

Lemma answering_answers t c : answers (answering t) c t.
Proof. exists {| text := AttrValue (Some t) |}. split; reflexivity. Qed.

(** The scenario of the specification: prose around an object. *)
Example chicken_biryani :
  serve (builtins := sample_builtins)
        (Some (answering (jlit "Sure! {'dish': 'Chicken Biryani', 'estimated_carbon_kg': 4.2, 'ingredients': [{'name': 'Rice', 'carbon_kg': 1.1}, {'name': 'Chicken', 'carbon_kg': 2.5}]}")))
        (TextRequest {| data_dish := lit "Chicken Biryani" |})
  = (Ret {| dish := lit "Chicken Biryani";
            estimated_carbon_kg := PyFloat.of_decimal false 42 (-1);
            ingredients :=
              [ {| name := lit "Rice"; carbon_kg := PyFloat.of_decimal false 11 (-1) |};
                {| name := lit "Chicken"; carbon_kg := PyFloat.of_decimal false 25 (-1) |} ] |},
     [Prompt (build_instruction_for_text (lit "Chicken Biryani"))]).
Proof. vm_compute. reflexivity. Qed.

(** Witness of C8: a dish of blanks and an empty upload, with a model
    available. *)
Lemma validation_errors_witness :
  serve (builtins := sample_builtins) (Some (answering (lit "{}")))
        (TextRequest {| data_dish := lit "   " |})
  = (Raise (HTTPException 400 (lit "'dish' must be a non-empty string")), [])
  /\ serve (builtins := sample_builtins) (Some (answering (lit "{}")))
           (ImageRequest {| content := []; content_type := None |})
     = (Raise (HTTPException 400 (lit "Empty image upload")), []).
Proof.
  destruct (validation_errors_precede_calls (builtins := sample_builtins)
              (Some (answering (lit "{}")))
              {| data_dish := lit "   " |}
              {| content := []; content_type := None |}) as [Ht Hi].
  split; [apply Ht | apply Hi]; reflexivity.
Defined.

(** Witness of C9: a valid request of each kind with no model handle. *)
Lemma unavailable_model_witness :
  serve (builtins := sample_builtins) None
        (TextRequest {| data_dish := lit "Dal" |})
  = (Raise (HTTPException 500 not_configured), [])
  /\ serve (builtins := sample_builtins) None
           (ImageRequest {| content := [x01%byte]; content_type := None |})
     = (Raise (HTTPException 500 not_configured), []).
Proof.
  pose proof (unavailable_model_fails_fast (builtins := sample_builtins))
    as (_ & _ & _ & H & _).
  split; apply H; simpl; [vm_compute|]; discriminate.
Defined.

(** Witness of C10: a non-empty array ends in the 502 error, an empty one
    in the fallback result. *)
Lemma non_object_json_witness :
  fst (serve (builtins := sample_builtins) (Some (answering (jlit "[1]")))
             (TextRequest {| data_dish := lit "Dal" |}))
  = Raise (HTTPException 502
             (lit "Model error: 'list' object has no attribute 'get'"))
  /\ fst (serve (builtins := sample_builtins) (Some (answering (jlit "[]")))
                (TextRequest {| data_dish := lit "Dal" |}))
     = Ret {| dish := lit "Dal"; estimated_carbon_kg := pos_zero; ingredients := [] |}.
Proof.
  split.
  - refine (proj1 (non_object_json_is_upstream_error (builtins := sample_builtins)
                     (answering (jlit "[1]")) {| data_dish := lit "Dal" |}
                     (jlit "[1]") _ (answering_answers _ _)) _ _).
    + vm_compute. discriminate.
    + vm_compute. reflexivity.
    + vm_compute. reflexivity.
  - refine (proj2 (non_object_json_is_upstream_error (builtins := sample_builtins)
                     (answering (jlit "[]")) {| data_dish := lit "Dal" |}
                     (jlit "[]") _ (answering_answers _ _)) _).
    + vm_compute. discriminate.
    + vm_compute. reflexivity.
Defined.

(** Witness of C7: the [carbon_kg] of the first entry is [null]. *)
Lemma invalid_carbon_witness :
  exists it' v' cls msg,
    In (PDict it') [PDict [(lit "name", PStr (lit "Rice")); (lit "carbon_kg", PNone)]]
    /\ dict_lookup it' (lit "carbon_kg") = Some v'
    /\ py_float (builtins := sample_builtins) v' = Raise (Exception cls msg)
    /\ fst (serve (builtins := sample_builtins)
                  (Some (answering (jlit "{'ingredients': [{'name': 'Rice', 'carbon_kg': null}]}")))
                  (TextRequest {| data_dish := lit "Dal" |}))
       = Raise (HTTPException 502 (lit "Model error: " +++ msg)).
Proof.
  refine (invalid_carbon_is_hard_failure (builtins := sample_builtins)
            (answering _) (TextRequest {| data_dish := lit "Dal" |})
            (jlit "{'ingredients': [{'name': 'Rice', 'carbon_kg': null}]}")
            [(lit "ingredients",
              PList [PDict [(lit "name", PStr (lit "Rice")); (lit "carbon_kg", PNone)]])]
            _ [(lit "name", PStr (lit "Rice")); (lit "carbon_kg", PNone)] PNone
            (Exception TypeError
               (lit "float() argument must be a string or a real number, not 'NoneType'"))
            _ (answering_answers _ _) _ _ _ _ _).
  - vm_compute. discriminate.
  - vm_compute. reflexivity.
  - vm_compute. reflexivity.
  - left. reflexivity.
  - vm_compute. reflexivity.
  - reflexivity.
Defined.

(** Witness of C3: an array with a mapping lacking its name, a bare string,
    and a mapping lacking its [carbon_kg]. *)
Lemma ingredient_entries_witness :
  fst (serve (builtins := sample_builtins)
             (Some (answering (jlit "{'ingredients': [{'carbon_kg': 1.5}, 'salt', {'name': 'Rice'}]}")))
             (TextRequest {| data_dish := lit "Dal" |}))
  = Ret {| dish := lit "Dal";
           estimated_carbon_kg := PyFloat.of_decimal false 15 (-1);
           ingredients :=
             [ {| name := lit "Unknown"; carbon_kg := PyFloat.of_decimal false 15 (-1) |};
               {| name := lit "Rice"; carbon_kg := pos_zero |} ] |}
  /\ Forall2 (ingredient_of (builtins := sample_builtins))
             (filter is_dict
                [PDict [(lit "carbon_kg", PFloat (PyFloat.of_decimal false 15 (-1)))];
                 PStr (lit "salt");
                 PDict [(lit "name", PStr (lit "Rice"))]])
             [ {| name := lit "Unknown"; carbon_kg := PyFloat.of_decimal false 15 (-1) |};
               {| name := lit "Rice"; carbon_kg := pos_zero |} ].
Proof.
  assert (Hr : fst (serve (builtins := sample_builtins)
             (Some (answering (jlit "{'ingredients': [{'carbon_kg': 1.5}, 'salt', {'name': 'Rice'}]}")))
             (TextRequest {| data_dish := lit "Dal" |}))
  = Ret {| dish := lit "Dal";
           estimated_carbon_kg := PyFloat.of_decimal false 15 (-1);
           ingredients :=
             [ {| name := lit "Unknown"; carbon_kg := PyFloat.of_decimal false 15 (-1) |};
               {| name := lit "Rice"; carbon_kg := pos_zero |} ] |})
    by (vm_compute; reflexivity).
  split; [exact Hr|].
  refine (proj1 (ingredient_entries_are_filtered_and_defaulted
                   (builtins := sample_builtins)
                   (answering _) (TextRequest {| data_dish := lit "Dal" |})
                   (jlit "{'ingredients': [{'carbon_kg': 1.5}, 'salt', {'name': 'Rice'}]}")
                   [(lit "ingredients",
                     PList [PDict [(lit "carbon_kg", PFloat (PyFloat.of_decimal false 15 (-1)))];
                            PStr (lit "salt");
                            PDict [(lit "name", PStr (lit "Rice"))]])]
                   _ _ (answering_answers _ _) _ _) _ Hr).
  - vm_compute. discriminate.
  - vm_compute. reflexivity.
  - vm_compute. reflexivity.
Defined.

(** Witness of C4: no top-level total, two ingredients of 0.1 and 0.2; the
    total is 0.3. *)
Lemma omitted_total_witness :
  fst (serve (builtins := sample_builtins)
             (Some (answering (jlit "{'ingredients': [{'carbon_kg': 0.1}, {'carbon_kg': 0.2}]}")))
             (TextRequest {| data_dish := lit "Dal" |}))
  = Ret {| dish := lit "Dal";
           estimated_carbon_kg := PyFloat.of_decimal false 3 (-1);
           ingredients :=
             [ {| name := lit "Unknown"; carbon_kg := PyFloat.of_decimal false 1 (-1) |};
               {| name := lit "Unknown"; carbon_kg := PyFloat.of_decimal false 2 (-1) |} ] |}
  /\ PyFloat.of_decimal false 3 (-1)
     = PyFloat.round2 (float_sum [PyFloat.of_decimal false 1 (-1);
                                  PyFloat.of_decimal false 2 (-1)]).
Proof.
  assert (Hr : fst (serve (builtins := sample_builtins)
             (Some (answering (jlit "{'ingredients': [{'carbon_kg': 0.1}, {'carbon_kg': 0.2}]}")))
             (TextRequest {| data_dish := lit "Dal" |}))
  = Ret {| dish := lit "Dal";
           estimated_carbon_kg := PyFloat.of_decimal false 3 (-1);
           ingredients :=
             [ {| name := lit "Unknown"; carbon_kg := PyFloat.of_decimal false 1 (-1) |};
               {| name := lit "Unknown"; carbon_kg := PyFloat.of_decimal false 2 (-1) |} ] |})
    by (vm_compute; reflexivity).
  split; [exact Hr|].
  refine (omitted_total_is_rounded_sum (builtins := sample_builtins)
            (answering _) (TextRequest {| data_dish := lit "Dal" |})
            (jlit "{'ingredients': [{'carbon_kg': 0.1}, {'carbon_kg': 0.2}]}")
            [(lit "ingredients",
              PList [PDict [(lit "carbon_kg", PFloat (PyFloat.of_decimal false 1 (-1)))];
                     PDict [(lit "carbon_kg", PFloat (PyFloat.of_decimal false 2 (-1)))]])]
            _ _ (answering_answers _ _) _ _ Hr).
  - vm_compute. discriminate.
  - vm_compute. reflexivity.
  - left. vm_compute. reflexivity.
Defined.

(** A text without braces that is valid JSON: the request answered with
    [[1]] has no successful response, it ends in the 502 error. *)
Example brace_free_json_array_is_an_error :
  find 123 (jlit "[1]") = None
  /\ rfind 125 (jlit "[1]") = None
  /\ serve (builtins := sample_builtins) (Some (answering (jlit "[1]")))
           (TextRequest {| data_dish := lit "Mystery Stew" |})
     = (Raise (HTTPException 502
                 (lit "Model error: 'list' object has no attribute 'get'")),
        [Prompt (build_instruction_for_text (lit "Mystery Stew"))]).
Proof. repeat split; vm_compute; reflexivity. Qed.

(** Witness of C2, and the scenario of the specification: garbage text
    without braces for the dish "Mystery Stew". *)
Lemma mystery_stew :
  serve (builtins := sample_builtins)
        (Some (answering (lit "I am afraid I can not help with that.")))
        (TextRequest {| data_dish := lit "Mystery Stew" |})
  = (Ret {| dish := lit "Mystery Stew";
            estimated_carbon_kg := pos_zero;
            ingredients := [] |},
     [Prompt (build_instruction_for_text (lit "Mystery Stew"))]).
Proof.
  refine (proj2 (unrecoverable_text_gives_fallback (builtins := sample_builtins)
                   (answering _) {| data_dish := lit "Mystery Stew" |}
                   (lit "I am afraid I can not help with that.")
                   _ (answering_answers _ _))
                (or_introl (conj _ (or_introl _)))).
  - vm_compute. discriminate.
  - vm_compute. reflexivity.
  - vm_compute. reflexivity.
Defined.

(** Counterexample to C5 as stated: a total of NaN is not replaced by
    [0.0], and a total that does not coerce does not fall through to
    [0.0]: the request ends in the 502 error. *)
Lemma nan_total_is_kept :
  serve (builtins := sample_builtins)
        (Some (answering (jlit "{'estimated_carbon_kg': NaN}")))
        (TextRequest {| data_dish := lit "Dal" |})
  = (Ret {| dish := lit "Dal"; estimated_carbon_kg := FNaN; ingredients := [] |},
     [Prompt (build_instruction_for_text (lit "Dal"))])
  /\ FNaN <> pos_zero
  /\ serve (builtins := sample_builtins)
           (Some (answering (jlit "{'estimated_carbon_kg': [4.2]}")))
           (TextRequest {| data_dish := lit "Dal" |})
     = (Raise (HTTPException 502
                 (lit "Model error: float() argument must be a string or a real number, not 'list'")),
        [Prompt (build_instruction_for_text (lit "Dal"))]).
Proof.
  split; [vm_compute; reflexivity|]. split; [discriminate|].
  vm_compute. reflexivity.
Qed.

(** Witness of C5 as amended: a total of 2.675 is rounded to 2.67. *)
Lemma final_total_witness :
  exists r,
    fst (serve (builtins := sample_builtins)
               (Some (answering (jlit "{'estimated_carbon_kg': 2.675}")))
               (TextRequest {| data_dish := lit "Dal" |}))
    = Ret r
    /\ estimated_carbon_kg r
       = PyFloat.round2 (or_zero (PyFloat.of_decimal false 2675 (-3))).
Proof.
  refine (proj1 (final_total_rule (builtins := sample_builtins)
                   (answering _) (TextRequest {| data_dish := lit "Dal" |})
                   (jlit "{'estimated_carbon_kg': 2.675}")
                   [(lit "estimated_carbon_kg",
                     PFloat (PyFloat.of_decimal false 2675 (-3)))]
                   [] []
                   _ (answering_answers _ _) _ _ _ _)).
  - vm_compute. discriminate.
  - vm_compute. reflexivity.
  - discriminate.
  - reflexivity.
  - reflexivity.
Defined.

(** Counterexample to C6 as stated: an [ingredients] value that is the
    number 5 gives the 502 error, not an empty sequence of ingredients. *)
Lemma numeric_ingredients_is_an_error :
  safe_parse_json (jlit "{'ingredients': 5}")
  = PDict [(lit "ingredients", PInt 5)]
  /\ serve (builtins := sample_builtins)
           (Some (answering (jlit "{'ingredients': 5}")))
           (TextRequest {| data_dish := lit "Dal" |})
     = (Raise (HTTPException 502 (lit "Model error: 'int' object is not iterable")),
        [Prompt (build_instruction_for_text (lit "Dal"))]).
Proof. split; vm_compute; reflexivity. Qed.

(** Witness of C6 as amended: an [ingredients] value that is a string. *)
Lemma ingredients_value_witness :
  (forall r,
      fst (serve (builtins := sample_builtins)
                 (Some (answering (jlit "{'ingredients': 'rice'}")))
                 (TextRequest {| data_dish := lit "Dal" |}))
      = Ret r -> ingredients r = [])
  /\ (total_coerces (builtins := sample_builtins)
                    [(lit "ingredients", PStr (lit "rice"))] ->
      exists r,
        fst (serve (builtins := sample_builtins)
                   (Some (answering (jlit "{'ingredients': 'rice'}")))
                   (TextRequest {| data_dish := lit "Dal" |}))
        = Ret r).
Proof.
  refine (ingredients_value_rule (builtins := sample_builtins)
            (answering _) (TextRequest {| data_dish := lit "Dal" |})
            (jlit "{'ingredients': 'rice'}")
            [(lit "ingredients", PStr (lit "rice"))]
            _ (answering_answers _ _) _ _).
  - vm_compute. discriminate.
  - vm_compute. reflexivity.
  - discriminate.
Defined.

(** * Further properties *)

(** ** Trimming *)

Lemma lstrip_blank ws s : blank ws = true -> lstrip (ws ++ s) = lstrip s.
Proof.
  unfold blank. induction ws as [|c ws IH]; simpl; [reflexivity|].
  intros H. apply andb_true_iff in H. destruct H as [Hc Hws].
  rewrite Hc. apply IH. exact Hws.
Qed.

Lemma lstrip_split s :
  exists ws, blank ws = true /\ s = ws ++ lstrip s.
Proof.
  induction s as [|c s (ws & Hws & Hs)]; simpl.
  - exists []. split; reflexivity.
  - destruct (is_space c) eqn:Hc.
    + exists (c :: ws). split; [simpl; rewrite Hc; exact Hws|].
      simpl. f_equal. exact Hs.
    + exists []. split; reflexivity.
Qed.

Lemma lstrip_head s :
  lstrip s = [] \/ exists c r, lstrip s = c :: r /\ is_space c = false.
Proof.
  induction s as [|c s IH]; simpl; [left; reflexivity|].
  destruct (is_space c) eqn:Hc; [exact IH|].
  right. exists c, s. split; [reflexivity|exact Hc].
Qed.

Lemma lstrip_nil s : lstrip s = [] <-> blank s = true.
Proof.
  unfold blank. induction s as [|c s IH]; simpl; [tauto|].
  destruct (is_space c); simpl; [exact IH|].
  split; discriminate.
Qed.

Lemma blank_rev s : blank (rev s) = blank s.
Proof.
  unfold blank. induction s as [|c s IH]; [reflexivity|].
  simpl. rewrite forallb_app, IH. simpl. rewrite andb_true_r. apply andb_comm.
Qed.

Lemma blank_app a b : blank (a ++ b) = blank a && blank b.
Proof. apply forallb_app. Qed.

(** [lstrip] leaves alone what follows a first character that stays. *)
Lemma lstrip_app_kept s t :
  lstrip s <> [] -> lstrip (s ++ t) = lstrip s ++ t.
Proof.
  induction s as [|c s IH]; simpl; [congruence|].
  destruct (is_space c); [exact IH|reflexivity].
Qed.

Lemma strip_nil s : strip s = [] <-> blank s = true.
Proof.
  unfold strip, rstrip. split.
  - intros H. apply (f_equal (@rev N)) in H. rewrite rev_involutive in H.
    simpl in H. apply lstrip_nil in H. rewrite blank_rev in H.
    destruct (lstrip_head s) as [Hn|(c & r & Hc & Hs)].
    + apply lstrip_nil. exact Hn.
    + rewrite Hc in H. unfold blank in H. simpl in H. rewrite Hs in H.
      discriminate.
  - intros H. apply lstrip_nil in H. rewrite H. reflexivity.
Qed.

(** Blanks around a string do not change what [strip] returns. *)
Lemma strip_blank_around ws1 s ws2 :
  blank ws1 = true -> blank ws2 = true ->
  strip (ws1 ++ s ++ ws2) = strip s.
Proof.
  intros H1 H2. unfold strip, rstrip. rewrite (lstrip_blank _ _ H1).
  destruct (lstrip s) as [|c r] eqn:Hs.
  - assert (Hb : blank (s ++ ws2) = true).
    { rewrite blank_app, H2, andb_true_r. apply lstrip_nil. exact Hs. }
    apply lstrip_nil in Hb. rewrite Hb. reflexivity.
  - rewrite lstrip_app_kept by congruence. rewrite Hs.
    rewrite rev_app_distr. rewrite lstrip_blank; [reflexivity|].
    rewrite blank_rev. exact H2.
Qed.

(** Every string is its trimmed part between two runs of blanks. *)
Lemma strip_split s :
  exists ws1 ws2,
    blank ws1 = true /\ blank ws2 = true /\ s = ws1 ++ strip s ++ ws2.
Proof.
  destruct (lstrip_split s) as (ws1 & H1 & Hs).
  destruct (lstrip_split (rev (lstrip s))) as (ws2 & H2 & Hr).
  exists ws1, (rev ws2). repeat split; [exact H1 | rewrite blank_rev; exact H2 |].
  unfold strip, rstrip. rewrite <- rev_app_distr, <- Hr, rev_involutive.
  exact Hs.
Qed.

Lemma strip_idempotent s : strip (strip s) = strip s.
Proof.
  destruct (strip_split s) as (ws1 & ws2 & H1 & H2 & Hs).
  rewrite Hs at 2. symmetry. apply strip_blank_around; assumption.
Qed.

(** ** Validation, calls and errors of the handlers *)

Section FurtherHandlerProperties.

Context {builtins : Builtins}.

(** X1.  The text endpoint answers with its validation error and without a
    call exactly when the dish is made of whitespace only. *)
Theorem text_rejected_iff_blank :
  forall model data,
    serve model (TextRequest data)
    = (Raise (HTTPException 400 (lit "'dish' must be a non-empty string")), [])
    <-> blank (data_dish data) = true.
Proof.
  intros model data. rewrite <- strip_nil. simpl. unfold estimate_text.
  destruct (strip (data_dish data)) as [|c d].
  - split; reflexivity.
  - split; [|discriminate]. destruct model; discriminate.
Qed.

(** X2.  The image endpoint answers with its validation error and without a
    call exactly when the payload is empty. *)
Theorem image_rejected_iff_empty :
  forall model image,
    serve model (ImageRequest image)
    = (Raise (HTTPException 400 (lit "Empty image upload")), [])
    <-> content image = [].
Proof.
  intros model image. simpl. unfold estimate_image.
  destruct (content image) as [|b bs].
  - split; reflexivity.
  - split; [|discriminate]. destruct model; discriminate.
Qed.

(** X3.  Whitespace around the dish is ignored: the same call is made and
    the same outcome returned as for the dish without it. *)
Theorem surrounding_whitespace_is_ignored :
  forall model ws1 d ws2,
    blank ws1 = true -> blank ws2 = true ->
    serve model (TextRequest {| data_dish := ws1 ++ d ++ ws2 |})
    = serve model (TextRequest {| data_dish := d |}).
Proof.
  intros model ws1 d ws2 H1 H2. simpl. unfold estimate_text. simpl.
  rewrite (strip_blank_around _ _ _ H1 H2). reflexivity.
Qed.

(** X4.  A request makes at most one call to the model.  It makes none
    when the request is invalid or there is no handle, and only then; when
    the request is valid and there is a handle it makes exactly the one
    call built from the request, whatever the model does with it. *)
Theorem at_most_one_call :
  forall model req,
    (snd (serve model req) = [] \/ snd (serve model req) = [sent req])
    /\ (snd (serve model req) = [] <-> (~ valid req \/ model = None))
    /\ (snd (serve model req) = [sent req]
        <-> (valid req /\ exists m, model = Some m)).
Proof.
  intros model req. destruct req as [data|image]; simpl;
    [unfold estimate_text; destruct (strip (data_dish data)) as [|c d] eqn:E
    |unfold estimate_image; destruct (content image) as [|b bs] eqn:E];
    try (destruct model as [m|]); simpl;
    (split; [auto|split; split]);
    try discriminate; try reflexivity;
    try (intros _; left; intros H; apply H; reflexivity);
    try (intros _; right; reflexivity);
    try (intros [H _]; exfalso; apply H; reflexivity);
    try (intros [_ [m0 H]]; discriminate H);
    try (intros [H|H]; [exfalso; apply H; discriminate|discriminate H]);
    try (intros _; split; [discriminate|eexists; reflexivity]).
Qed.

(** X5.  What the model raises on a valid request: an [HTTPException] is
    passed on as it is, and any other exception becomes the 502 error
    carrying its message. *)
Theorem model_failure_mapping :
  forall m req,
    valid req ->
    (forall cls msg,
        generate_content m (sent req) = Raise (Exception cls msg) ->
        serve (Some m) req
        = (Raise (HTTPException 502 (lit "Model error: " +++ msg)), [sent req]))
    /\ (forall status detail,
           generate_content m (sent req) = Raise (HTTPException status detail) ->
           serve (Some m) req
           = (Raise (HTTPException status detail), [sent req])).
Proof.
  intros m req Hv. destruct req as [data|image]; simpl in *;
    [unfold estimate_text; destruct (strip (data_dish data)) as [|c d]
    |unfold estimate_image; destruct (content image) as [|b bs]];
    try congruence; split; intros ? ? H; rewrite H; reflexivity.
Qed.

Lemma bind_raises (A B : Type) (c : result A) (k : A -> result B) e :
  bind c k = Raise e -> c = Raise e \/ exists a, c = Ret a /\ k a = Raise e.
Proof.
  destruct c as [a|e0]; simpl; intros H.
  - right. exists a. split; [reflexivity|exact H].
  - left. injection H as ->. reflexivity.
Qed.

Lemma build_ingredients_plain items e :
  build_ingredients items = Raise e -> exists cls msg, e = Exception cls msg.
Proof.
  induction items as [|x items IH]; [discriminate|].
  destruct x; simpl; try exact IH. intros H.
  apply bind_raises in H. destruct H as [H|[c [_ H]]].
  - exact (py_float_raises _ _ H).
  - apply bind_raises in H. destruct H as [H|[tl [_ H]]]; [auto|discriminate].
Qed.

(** Case analysis of a hypothesis saying that a step of the coercion
    raises. *)
Ltac raised_plain H :=
  first
    [ exact (build_ingredients_plain _ _ H)
    | exact (py_float_raises _ _ H)
    | discriminate H
    | injection H as <-; eexists; eexists; reflexivity
    | match type of H with
      | context [match ?t with _ => _ end] => destruct t
      end; raised_plain H
    | apply bind_raises in H; destruct H as [H|[? [? H]]]; raised_plain H ].

(** The coercion raises no [HTTPException]. *)
Lemma coerce_shape_plain fb v e : coerce_shape fb v = Raise e -> plain e.
Proof.
  unfold coerce_shape, plain. intros H.
  unfold py_get, py_iter, py_round2, validate_float, py_or in H.
  repeat (apply bind_raises in H; destruct H as [H|[? [? H]]]);
    raised_plain H.
Qed.

(** X6.  No exception other than an [HTTPException] leaves a handler, and
    its status is 400, 500 or 502 unless the model itself raised an
    [HTTPException], which is then the one passed on. *)
Theorem only_http_errors_escape :
  forall model req e,
    fst (serve model req) = Raise e ->
    exists status detail,
      e = HTTPException status detail
      /\ (status = 400%Z \/ status = 500%Z \/ status = 502%Z
          \/ (exists m, model = Some m
                        /\ (generate_content m (sent req) = Raise e
                            \/ exists r, generate_content m (sent req) = Ret r
                                         /\ text r = AttrRaises e))).
Proof.
  intros model req e H.
  assert (Hbody : forall m fb,
             handle_errors
               (response <- generate_content m (sent req) ;;
                text <- response_text response ;;
                normalize fb text) = Raise e ->
             exists status detail,
               e = HTTPException status detail
               /\ (status = 400%Z \/ status = 500%Z \/ status = 502%Z
                   \/ (exists m0, Some m = Some m0
                          /\ (generate_content m0 (sent req) = Raise e
                              \/ exists r, generate_content m0 (sent req) = Ret r
                                           /\ text r = AttrRaises e)))).
  { intros m fb Hb.
    destruct (response <- generate_content m (sent req) ;;
              text <- response_text response ;;
              normalize fb text) as [x|[st dt|cls msg]] eqn:Hx;
      simpl in Hb; try discriminate Hb; injection Hb as <-.
    2: { eexists; eexists. split; [reflexivity|]. auto. }
    exists st, dt. split; [reflexivity|]. right. right. right.
    exists m. split; [reflexivity|].
    apply bind_raises in Hx. destruct Hx as [Hx|[r [Hr Hx]]]; [left; exact Hx|].
    right. exists r. split; [exact Hr|].
    apply bind_raises in Hx. destruct Hx as [Hx|[t [_ Hx]]].
    - unfold response_text in Hx.
      destruct (text r) as [|e0|[t|]]; try discriminate Hx.
      destruct e0 as [st0 dt0|[] msg0]; try discriminate Hx; congruence.
    - exfalso. apply coerce_shape_plain in Hx. destruct Hx as (cls & msg & Hx).
      discriminate Hx. }
  destruct req as [data|image]; cbn [serve sent] in *;
    [unfold estimate_text in H; destruct (strip (data_dish data)) as [|c d]
    |unfold estimate_image in H; destruct (content image) as [|b bs]];
    try (injection H as <-; eexists; eexists; split; [reflexivity|]; auto; fail);
    (destruct model as [m|];
     [cbn [fst] in H; apply Hbody in H; exact H
     |injection H as <-; eexists; eexists; split; [reflexivity|]; auto]).
Qed.

(** X7.  A response without usable text is not an error: when the [text]
    attribute is missing, is [None], is the empty string, or raises an
    [AttributeError], a valid request gets the fallback result.  When
    reading it raises another exception, the request gets the 502 error
    carrying that exception's message. *)
Theorem response_without_text :
  forall m req r,
    valid req ->
    generate_content m (sent req) = Ret r ->
    (text r = AttrMissing \/ text r = AttrValue None \/ text r = AttrValue (Some [])
     \/ (exists msg, text r = AttrRaises (Exception AttributeError msg)) ->
     serve (Some m) req
     = (Ret {| dish := fallback_dish_of req;
               estimated_carbon_kg := pos_zero;
               ingredients := [] |},
        [sent req]))
    /\ (forall cls msg,
           text r = AttrRaises (Exception cls msg) -> cls <> AttributeError ->
           serve (Some m) req
           = (Raise (HTTPException 502 (lit "Model error: " +++ msg)), [sent req])).
Proof.
  intros m req r Hv Hg. split.
  - intros Ht.
    assert (Ha : answers m (sent req) []).
    { exists r. split; [exact Hg|]. unfold response_text.
      destruct Ht as [-> | [-> | [-> | [msg ->]]]]; reflexivity. }
    rewrite (serve_answered _ _ _ Hv Ha), normalize_falsy; reflexivity.
  - intros cls msg Ht Hc.
    destruct req as [data|image]; simpl in *;
      [unfold estimate_text; destruct (strip (data_dish data)) as [|c d]
      |unfold estimate_image; destruct (content image) as [|b bs]];
      try congruence; rewrite Hg; cbn [bind]; unfold response_text; rewrite Ht;
      destruct cls; try congruence; reflexivity.
Qed.

Lemma build_entries ings :
  build_ingredients (map entry_of ings) = Ret ings.
Proof.
  induction ings as [|i ings IH]; [reflexivity|].
  destruct i as [n c]. cbn [map]. unfold entry_of at 1.
  cbn [build_ingredients name carbon_kg].
  change (dict_get [(lit "name", PStr n); (lit "carbon_kg", PFloat c)]
            (lit "name") (PStr (lit "Unknown"))) with (PStr n).
  change (dict_get [(lit "name", PStr n); (lit "carbon_kg", PFloat c)]
            (lit "carbon_kg") (PFloat pos_zero)) with (PFloat c).
  cbn [py_float bind py_str]. rewrite IH. reflexivity.
Qed.

(** X8.  When the recovered object has the target shape (a string [dish],
    a float total, and an array of objects with a string [name] and a float
    [carbon_kg]), the result holds exactly these values, the total rounded
    to two decimals after a zero total is made [0.0]. *)
Theorem well_shaped_object_is_returned :
  forall m req text d s f ings,
    valid req -> answers m (sent req) text ->
    safe_parse_json text = PDict d ->
    dict_lookup d (lit "dish") = Some (PStr s) ->
    dict_lookup d (lit "estimated_carbon_kg") = Some (PFloat f) ->
    dict_lookup d (lit "ingredients") = Some (PList (map entry_of ings)) ->
    fst (serve (Some m) req)
    = Ret {| dish := s;
             estimated_carbon_kg := PyFloat.round2 (or_zero f);
             ingredients := ings |}.
Proof.
  intros m req text d s f ings Hv Ha Hp Hd Ht Hi.
  rewrite (serve_object _ _ _ _ Hv Ha Hp (lookup_nonempty _ _ _ Hd)).
  rewrite (coerce_dict _ _ _ _ (items_of_list _ _ Hi) (build_entries ings)).
  rewrite Ht, dict_get_lookup, Hd. reflexivity.
Qed.

(** X9.  The dish of a result is the value at the [dish] key of the
    recovered object, as a string, and the dish the handler falls back to
    (the trimmed input, or "Uploaded Dish") when nothing was recovered or
    the object has no such key. *)
Theorem result_dish :
  forall m req text r,
    valid req -> answers m (sent req) text ->
    fst (serve (Some m) req) = Ret r ->
    dish r = match recovered_dish (safe_parse_json text) with
             | Some v => py_str v
             | None => fallback_dish_of req
             end.
Proof.
  intros m req text r Hv Ha Hr. rewrite (serve_answered _ _ _ Hv Ha) in Hr.
  cbn [fst] in Hr. apply (proj1 (handle_errors_ret _ _ _)) in Hr.
  destruct (py_truthy (safe_parse_json text)) eqn:Ht.
  - rewrite (normalize_truthy _ _ Ht) in Hr.
    destruct (safe_parse_json text) as [| | | | | |d] eqn:Hp;
      try (rewrite coerce_non_dict in Hr by reflexivity; discriminate Hr).
    destruct (coerce_dict_inv _ _ _ Hr) as (items & _ & _ & Hd & _).
    rewrite Hd, dict_get_lookup. simpl.
    destruct (dict_lookup d (lit "dish")); reflexivity.
  - rewrite (normalize_falsy _ _ Ht) in Hr. injection Hr as <-. simpl.
    destruct (safe_parse_json text) as [| | | | | |d]; try reflexivity.
    destruct d; [reflexivity|discriminate Ht].
Qed.

Lemma round_units_sign neg M : is_negative (PyFloat.round_units neg M) = neg.
Proof.
  unfold PyFloat.round_units.
  destruct (N.eqb _ _); simpl;
    repeat match goal with
           | |- context [match ?t with _ => _ end] => destruct t
           end; reflexivity.
Qed.

Lemma round2_sign x : is_negative (PyFloat.round2 x) = is_negative x.
Proof.
  destruct x; try reflexivity. unfold PyFloat.round2, PyFloat.round_ratio.
  apply round_units_sign.
Qed.

(** X10.  The total of the model is not clamped: a total that is not a
    zero keeps its sign in the result, so a negative total stays
    negative (or becomes [-0.0]). *)
Theorem total_keeps_its_sign :
  forall m req text d v f r,
    valid req -> answers m (sent req) text ->
    safe_parse_json text = PDict d ->
    dict_lookup d (lit "estimated_carbon_kg") = Some v ->
    v <> PNone -> py_float v = Ret f ->
    PyFloat.truthy f = true ->
    fst (serve (Some m) req) = Ret r ->
    is_negative (estimated_carbon_kg r) = is_negative f.
Proof.
  intros m req text d v f r Hv Ha Hp Hl Hn Hf Ht Hr.
  rewrite (serve_object _ _ _ _ Hv Ha Hp (lookup_nonempty _ _ _ Hl)) in Hr.
  apply (proj1 (handle_errors_ret _ _ _)) in Hr.
  destruct (coerce_dict_inv _ _ _ Hr) as (items & _ & _ & _ & He).
  rewrite Hl in He.
  assert (He' : exists g, py_float v = Ret g
                          /\ estimated_carbon_kg r = PyFloat.round2 (or_zero g)).
  { destruct v; try exact He. congruence. }
  destruct He' as (g & Hg & ->). rewrite Hf in Hg. injection Hg as <-.
  rewrite round2_sign. unfold or_zero. rewrite Ht. reflexivity.
Qed.

(** X11.  The call made for an image carries the fixed instruction, the
    uploaded bytes unchanged, and a media type that is never empty: the
    declared one, or [image/jpeg] when none is declared. *)
Theorem image_call_parts :
  forall m image,
    content image <> [] ->
    exists mime,
      snd (serve (Some m) (ImageRequest image))
      = [Parts build_instruction_for_image mime (content image)]
      /\ mime <> []
      /\ (forall t, content_type image = Some t -> t <> [] -> mime = t)
      /\ (content_type image = None \/ content_type image = Some [] ->
          mime = lit "image/jpeg").
Proof.
  intros m image Hc. simpl. unfold estimate_image.
  destruct (content image) as [|b bs]; [congruence|].
  eexists. split; [reflexivity|].
  destruct (content_type image) as [[|c t]|]; repeat split;
    try discriminate; try congruence;
    try (intros t0 [= <-] Hn; congruence);
    try (intros [H|H]; discriminate H).
Qed.

(** X12.  [configure_gemini] returns a handle exactly when the key is
    present and not empty, the library is available, [genai.configure]
    succeeds and the constructor, called with [MODEL_NAME], returns it.  An
    exception of the constructor is swallowed (no handle), one of
    [genai.configure] is not. *)
Theorem configure_gemini_handle :
  forall api_key genai,
    (forall m,
        configure_gemini api_key genai = Ret (Some m)
        <-> exists key g,
              api_key = Some key /\ key <> [] /\ genai = Some g
              /\ configure g key = Ret tt
              /\ new_GenerativeModel g MODEL_NAME = Ret m)
    /\ (forall key g e,
           api_key = Some key -> key <> [] -> genai = Some g ->
           configure g key = Ret tt ->
           new_GenerativeModel g MODEL_NAME = Raise e ->
           configure_gemini api_key genai = Ret None)
    /\ (forall key g e,
           api_key = Some key -> key <> [] -> genai = Some g ->
           configure g key = Raise e ->
           configure_gemini api_key genai = Raise e).
Proof.
  intros api_key genai. split; [|split].
  - intros m. split.
    + unfold configure_gemini.
      destruct api_key as [[|c key]|]; try discriminate.
      destruct genai as [g|]; try discriminate.
      destruct (configure g (c :: key)) as [[]|e] eqn:Hc; simpl; [|discriminate].
      destruct (new_GenerativeModel g MODEL_NAME) as [m0|e] eqn:Hn;
        [|discriminate].
      intros [= <-]. exists (c :: key), g. repeat split; try assumption.
      discriminate.
    + intros (key & g & -> & Hk & -> & Hc & Hn).
      destruct key as [|c key]; [congruence|].
      unfold configure_gemini. rewrite Hc. simpl. rewrite Hn. reflexivity.
  - intros key g e -> Hk -> Hc Hn. destruct key as [|c key]; [congruence|].
    unfold configure_gemini. rewrite Hc. simpl. rewrite Hn. reflexivity.
  - intros key g e -> Hk -> Hc. destruct key as [|c key]; [congruence|].
    unfold configure_gemini. rewrite Hc. reflexivity.
Qed.

(** X13.  The search tab posts nothing for a blank dish and otherwise posts
    the trimmed dish; what it posts always passes the validation of the
    endpoint, which trims nothing more from it. *)
Theorem search_tab_posts_valid_requests :
  forall dish,
    (blank dish = true ->
     search_tab dish = ShowError (lit "Please enter a dish name."))
    /\ (blank dish = false ->
        search_tab dish = PostEstimate {| data_dish := strip dish |}
        /\ valid (TextRequest {| data_dish := strip dish |})
        /\ strip (strip dish) = strip dish
        /\ forall model,
             serve model (TextRequest {| data_dish := strip dish |})
             <> (Raise (HTTPException 400 (lit "'dish' must be a non-empty string")),
                 [])).
Proof.
  intros dish. unfold search_tab. split.
  - intros H. apply strip_nil in H. rewrite H. reflexivity.
  - intros H.
    assert (Hs : strip dish <> []).
    { intros Hn. apply strip_nil in Hn. congruence. }
    destruct (strip dish) as [|c d] eqn:E; [congruence|]. rewrite <- E.
    assert (Hi : strip (strip dish) = strip dish) by apply strip_idempotent.
    repeat split.
    + simpl. rewrite Hi, E. discriminate.
    + exact Hi.
    + intros model. simpl. unfold estimate_text. simpl. rewrite Hi, E.
      destruct model; discriminate.
Qed.

(** X14.  The vision tab posts any chosen file, empty or not, with a media
    type that is never empty; an empty file is then refused by the endpoint
    with its 400 error, without a call to the model. *)
Theorem vision_tab_posts_any_file :
  forall u,
    exists upload,
      vision_tab (Some u) = PostImage upload
      /\ content upload = file_bytes u
      /\ (exists c t, content_type upload = Some (c :: t))
      /\ (file_bytes u = [] ->
          forall model,
            serve model (ImageRequest upload)
            = (Raise (HTTPException 400 (lit "Empty image upload")), [])).
Proof.
  intros u. eexists. split; [reflexivity|]. split; [reflexivity|]. split.
  - simpl. destruct (file_type u) as [[|c t]|]; eexists; eexists; reflexivity.
  - intros H model. simpl. unfold estimate_image. simpl. rewrite H. reflexivity.
Qed.

End FurtherHandlerProperties.

(** ** Recovery from prose *)

Lemma find_after_prefix c pre rest :
  ~ In c pre -> find c (pre ++ c :: rest) = Some (List.length pre).
Proof.
  induction pre as [|x pre IH]; intros Hn; simpl.
  - rewrite N.eqb_refl. reflexivity.
  - destruct (N.eqb_spec x c) as [->|_]; [exfalso; apply Hn; left; reflexivity|].
    rewrite IH; [reflexivity|]. intros H. apply Hn. right. exact H.
Qed.

Lemma rfind_before_suffix c front post :
  ~ In c post -> rfind c (front ++ c :: post) = Some (List.length front).
Proof.
  intros Hn. induction front as [|x front IH]; simpl.
  - assert (Hr : rfind c post = None).
    { apply rfind_none. intros j Hj. apply Hn. eapply nth_error_In. exact Hj. }
    rewrite Hr, N.eqb_refl. reflexivity.
  - rewrite IH. reflexivity.
Qed.

Lemma slice_middle pre mid post :
  slice (pre ++ mid ++ post) (List.length pre) (List.length pre + List.length mid)
  = mid.
Proof.
  unfold slice. replace (List.length pre + List.length mid - List.length pre)
    with (List.length mid) by lia.
  rewrite skipn_app, Nat.sub_diag, skipn_all. simpl.
  rewrite firstn_app, Nat.sub_diag, firstn_all. simpl. apply app_nil_r.
Qed.

(** X15.  An object wrapped in prose is recovered: when the text is not
    valid JSON as a whole, no opening brace precedes the wrapped part and
    no closing brace follows it, what is recovered is what the part from
    its opening to its closing brace decodes to ([None] when it does not
    decode). *)
Theorem object_in_prose_is_recovered :
  forall pre body post,
    ~ In 123%N pre -> ~ In 125%N post ->
    Json.loads (pre ++ (123%N :: body ++ [125%N]) ++ post) = None ->
    safe_parse_json (pre ++ (123%N :: body ++ [125%N]) ++ post)
    = match Json.loads (123%N :: body ++ [125%N]) with
      | Some v => v
      | None => PNone
      end.
Proof.
  intros pre body post Hpre Hpost Hl. unfold safe_parse_json. rewrite Hl.
  assert (Hf : find 123 (pre ++ (123%N :: body ++ [125%N]) ++ post)
               = Some (List.length pre)).
  { cbn [app]. apply find_after_prefix. exact Hpre. }
  assert (Hr : rfind 125 (pre ++ (123%N :: body ++ [125%N]) ++ post)
               = Some (List.length (pre ++ 123%N :: body))).
  { replace (pre ++ (123%N :: body ++ [125%N]) ++ post)
      with ((pre ++ 123%N :: body) ++ 125%N :: post)
      by (cbn [app]; rewrite <- !app_assoc; reflexivity).
    apply rfind_before_suffix. exact Hpost. }
  rewrite Hf, Hr.
  assert (Hlt : (List.length pre <? List.length (pre ++ 123%N :: body)) = true).
  { apply Nat.ltb_lt. rewrite length_app. simpl. lia. }
  rewrite Hlt.
  replace (List.length (pre ++ 123%N :: body) + 1)
    with (List.length pre + List.length (123%N :: body ++ [125%N]))
    by (rewrite length_app; cbn [List.length]; rewrite length_app;
        cbn [List.length]; lia).
  rewrite slice_middle. reflexivity.
Qed.

Lemma parse_object_dict fuel :
  forall acc s v r,
    Json.parse_object fuel acc s = Json.Done v r -> is_dict v = true.
Proof.
  induction fuel as [|f IH]; intros acc s v r H; [discriminate|].
  cbn [Json.parse_object] in H.
  destruct s as [|q s]; [discriminate|].
  destruct (N.eqb q 34); [|discriminate].
  destruct (Json.scanstring s []) as [[key r1]|]; [|discriminate].
  destruct (Json.skip_ws r1) as [|colon r2]; [discriminate|].
  destruct (N.eqb colon 58); [|discriminate].
  destruct (Json.scan_once f (Json.skip_ws r2)) as [w r3| |]; try discriminate.
  destruct (Json.skip_ws r3) as [|x r4]; [discriminate|].
  destruct (N.eqb x 125); [injection H as <- <-; reflexivity|].
  destruct (N.eqb x 44); [|discriminate]. exact (IH _ _ _ _ H).
Qed.

(** A text that starts with an opening brace decodes to an object, if it
    decodes. *)
Lemma loads_brace_start t v :
  Json.loads (123%N :: t) = Some v -> is_dict v = true.
Proof.
  unfold Json.loads, Json.decode.
  change (Json.starts_with_bom (123%N :: t)) with false.
  change (Json.skip_ws (123%N :: t)) with (123%N :: t).
  cbn [Json.scan_once].
  change (N.eqb 123 34) with false. change (N.eqb 123 123) with true.
  cbv iota.
  destruct (Json.skip_ws t) as [|x r']; [discriminate|].
  destruct (N.eqb x 125).
  - destruct (Json.skip_ws r'); [|discriminate]. intros [= <-]. reflexivity.
  - destruct (Json.parse_object _ _ _) as [w r| |] eqn:E; try discriminate.
    destruct (Json.skip_ws r); [|discriminate]. intros [= <-].
    exact (parse_object_dict _ _ _ _ _ E).
Qed.

Lemma skipn_nth (A : Type) (l : list A) n x :
  nth_error l n = Some x -> skipn n l = x :: skipn (S n) l.
Proof.
  revert n. induction l as [|y l IH]; intros [|n] H; try discriminate.
  - injection H as ->. reflexivity.
  - simpl in H. apply IH in H. exact H.
Qed.

(** X16.  When the text is not valid JSON as a whole, what is recovered is
    an object or nothing: a list, a number or a string is only ever
    returned for a text that is valid JSON as it stands. *)
Theorem partial_recovery_is_object_or_none :
  forall text,
    Json.loads text = None ->
    safe_parse_json text = PNone \/ exists d, safe_parse_json text = PDict d.
Proof.
  intros text Hl. unfold safe_parse_json. rewrite Hl.
  destruct (find 123 text) as [s|] eqn:Hs; [|left; reflexivity].
  destruct (rfind 125 text) as [e|] eqn:He; [|left; reflexivity].
  destruct (Nat.ltb_spec s e) as [Hlt|_]; [|left; reflexivity].
  destruct (Json.loads (slice text s (e + 1))) as [v|] eqn:Hv; [|left; reflexivity].
  right. apply find_first in Hs. destruct Hs as [Hn _].
  unfold slice in Hv. rewrite (skipn_nth _ _ _ _ Hn) in Hv.
  replace (e + 1 - s) with (S (e - s)) in Hv by lia. cbn [firstn] in Hv.
  apply loads_brace_start in Hv. destruct v; try discriminate Hv.
  eexists. reflexivity.
Qed.

(** ** Evaluations on concrete requests, continued *)

(** Witness of X3: two spaces before the dish and a newline after it. *)
Lemma surrounding_whitespace_witness :
  serve (builtins := sample_builtins) (Some (answering (jlit "{}")))
        (TextRequest {| data_dish := lit "  " ++ lit "Dal" ++ [10%N] |})
  = serve (builtins := sample_builtins) (Some (answering (jlit "{}")))
          (TextRequest {| data_dish := lit "Dal" |}).
Proof.
  refine (surrounding_whitespace_is_ignored (builtins := sample_builtins)
            (Some (answering (jlit "{}"))) (lit "  ") (lit "Dal") [10%N] _ _);
    vm_compute; reflexivity.
Defined.

(** Witness of X5: the call raises a [ValueError]. *)
Lemma model_failure_witness :
  serve (builtins := sample_builtins)
        (Some (failing (Exception ValueError (lit "quota exceeded"))))
        (TextRequest {| data_dish := lit "Dal" |})
  = (Raise (HTTPException 502 (lit "Model error: " +++ lit "quota exceeded")),
     [sent (TextRequest {| data_dish := lit "Dal" |})]).
Proof.
  refine (proj1 (model_failure_mapping (builtins := sample_builtins)
                   (failing (Exception ValueError (lit "quota exceeded")))
                   (TextRequest {| data_dish := lit "Dal" |}) _)
                ValueError (lit "quota exceeded") _).
  - vm_compute. discriminate.
  - reflexivity.
Defined.

(** Witness of X6: the error of a request answered with a JSON array. *)
Lemma only_http_errors_witness :
  exists status detail,
    HTTPException 502 (lit "Model error: 'list' object has no attribute 'get'")
    = HTTPException status detail
    /\ (status = 400%Z \/ status = 500%Z \/ status = 502%Z
        \/ (exists m,
               Some (answering (jlit "[1]")) = Some m
               /\ (generate_content m (sent (TextRequest {| data_dish := lit "Dal" |}))
                   = Raise (HTTPException 502
                              (lit "Model error: 'list' object has no attribute 'get'"))
                   \/ exists r,
                       generate_content m (sent (TextRequest {| data_dish := lit "Dal" |}))
                       = Ret r
                       /\ text r
                          = AttrRaises
                              (HTTPException 502
                                 (lit "Model error: 'list' object has no attribute 'get'"))))).
Proof.
  refine (only_http_errors_escape (builtins := sample_builtins)
            (Some (answering (jlit "[1]")))
            (TextRequest {| data_dish := lit "Dal" |})
            (HTTPException 502 (lit "Model error: 'list' object has no attribute 'get'"))
            _).
  vm_compute. reflexivity.
Defined.

(** Witness of X7: a response that has no [text] attribute. *)
Lemma response_without_text_witness :
  serve (builtins := sample_builtins) (Some (responding AttrMissing))
        (TextRequest {| data_dish := lit "Dal" |})
  = (Ret {| dish := fallback_dish_of (TextRequest {| data_dish := lit "Dal" |});
            estimated_carbon_kg := pos_zero;
            ingredients := [] |},
     [sent (TextRequest {| data_dish := lit "Dal" |})]).
Proof.
  refine (proj1 (response_without_text (builtins := sample_builtins)
                   (responding AttrMissing)
                   (TextRequest {| data_dish := lit "Dal" |})
                   {| text := AttrMissing |} _ _)
                (or_introl _)).
  - vm_compute. discriminate.
  - reflexivity.
  - reflexivity.
Defined.

(** Witness of X8: an object of the target shape with one ingredient. *)
Lemma well_shaped_object_witness :
  fst (serve (builtins := sample_builtins)
             (Some (answering
                      (jlit "{'dish': 'Masoor Dal', 'estimated_carbon_kg': 1.25, 'ingredients': [{'name': 'Lentils', 'carbon_kg': 1.25}]}")))
             (TextRequest {| data_dish := lit "Dal" |}))
  = Ret {| dish := lit "Masoor Dal";
           estimated_carbon_kg :=
             PyFloat.round2 (or_zero (PyFloat.of_decimal false 125 (-2)));
           ingredients :=
             [ {| name := lit "Lentils";
                  carbon_kg := PyFloat.of_decimal false 125 (-2) |} ] |}.
Proof.
  refine (well_shaped_object_is_returned (builtins := sample_builtins)
            (answering _) (TextRequest {| data_dish := lit "Dal" |})
            (jlit "{'dish': 'Masoor Dal', 'estimated_carbon_kg': 1.25, 'ingredients': [{'name': 'Lentils', 'carbon_kg': 1.25}]}")
            [(lit "dish", PStr (lit "Masoor Dal"));
             (lit "estimated_carbon_kg", PFloat (PyFloat.of_decimal false 125 (-2)));
             (lit "ingredients",
              PList [PDict [(lit "name", PStr (lit "Lentils"));
                            (lit "carbon_kg", PFloat (PyFloat.of_decimal false 125 (-2)))]])]
            (lit "Masoor Dal") (PyFloat.of_decimal false 125 (-2))
            [ {| name := lit "Lentils";
                 carbon_kg := PyFloat.of_decimal false 125 (-2) |} ]
            _ (answering_answers _ _) _ _ _ _).
  - vm_compute. discriminate.
  - vm_compute. reflexivity.
  - vm_compute. reflexivity.
  - vm_compute. reflexivity.
  - vm_compute. reflexivity.
Defined.

(** Witness of X9: the object names the dish differently from the
    request. *)
Lemma result_dish_witness :
  dish {| dish := lit "Masoor Dal"; estimated_carbon_kg := pos_zero; ingredients := [] |}
  = match recovered_dish (safe_parse_json (jlit "{'dish': 'Masoor Dal'}")) with
    | Some v => py_str (builtins := sample_builtins) v
    | None => fallback_dish_of (TextRequest {| data_dish := lit "Dal" |})
    end.
Proof.
  refine (result_dish (builtins := sample_builtins)
            (answering _) (TextRequest {| data_dish := lit "Dal" |})
            (jlit "{'dish': 'Masoor Dal'}")
            {| dish := lit "Masoor Dal"; estimated_carbon_kg := pos_zero;
               ingredients := [] |}
            _ (answering_answers _ _) _).
  - vm_compute. discriminate.
  - vm_compute. reflexivity.
Defined.

(** Witness of X10: a total of -1.5 stays negative. *)
Lemma total_keeps_its_sign_witness :
  is_negative
    (estimated_carbon_kg
       {| dish := lit "Dal";
          estimated_carbon_kg := PyFloat.of_decimal true 15 (-1);
          ingredients := [] |})
  = is_negative (PyFloat.of_decimal true 15 (-1)).
Proof.
  refine (total_keeps_its_sign (builtins := sample_builtins)
            (answering _) (TextRequest {| data_dish := lit "Dal" |})
            (jlit "{'estimated_carbon_kg': -1.5}")
            [(lit "estimated_carbon_kg", PFloat (PyFloat.of_decimal true 15 (-1)))]
            (PFloat (PyFloat.of_decimal true 15 (-1)))
            (PyFloat.of_decimal true 15 (-1))
            {| dish := lit "Dal";
               estimated_carbon_kg := PyFloat.of_decimal true 15 (-1);
               ingredients := [] |}
            _ (answering_answers _ _) _ _ _ _ _ _).
  - vm_compute. discriminate.
  - vm_compute. reflexivity.
  - vm_compute. reflexivity.
  - discriminate.
  - reflexivity.
  - vm_compute. reflexivity.
  - vm_compute. reflexivity.
Defined.

(** Witness of X11: a one-byte upload declared as [image/png]. *)
Lemma image_call_parts_witness :
  exists mime,
    snd (serve (builtins := sample_builtins) (Some (answering (jlit "{}")))
               (ImageRequest {| content := [x01%byte];
                                content_type := Some (lit "image/png") |}))
    = [Parts build_instruction_for_image mime
             (content {| content := [x01%byte];
                         content_type := Some (lit "image/png") |})]
    /\ mime <> []
    /\ (forall t,
           content_type {| content := [x01%byte];
                           content_type := Some (lit "image/png") |} = Some t ->
           t <> [] -> mime = t)
    /\ (content_type {| content := [x01%byte];
                        content_type := Some (lit "image/png") |} = None
        \/ content_type {| content := [x01%byte];
                           content_type := Some (lit "image/png") |} = Some [] ->
        mime = lit "image/jpeg").
Proof.
  refine (image_call_parts (builtins := sample_builtins)
            (answering (jlit "{}"))
            {| content := [x01%byte]; content_type := Some (lit "image/png") |} _).
  discriminate.
Defined.

(** Witness of X15: an object between a sentence and a greeting. *)
Lemma object_in_prose_witness :
  safe_parse_json
    (lit "Here you go: " ++ (123%N :: jlit "'dish': 'Dal'" ++ [125%N]) ++ lit " Enjoy!")
  = match Json.loads (123%N :: jlit "'dish': 'Dal'" ++ [125%N]) with
    | Some v => v
    | None => PNone
    end.
Proof.
  refine (object_in_prose_is_recovered
            (lit "Here you go: ") (jlit "'dish': 'Dal'") (lit " Enjoy!") _ _ _).
  - vm_compute. intuition discriminate.
  - vm_compute. intuition discriminate.
  - vm_compute. reflexivity.
Defined.

(** Witness of X16: a text with an object after a label. *)
Lemma partial_recovery_witness :
  safe_parse_json (jlit "Result: {'dish': 'Dal'}") = PNone
  \/ exists d, safe_parse_json (jlit "Result: {'dish': 'Dal'}") = PDict d.
Proof.
  refine (partial_recovery_is_object_or_none (jlit "Result: {'dish': 'Dal'}") _).
  vm_compute. reflexivity.
Defined.
